(** * Session manager and content client of the blogging front-end

    A shallow embedding of [contexts/AuthContext.js], [services/PostService.js]
    and of the post handlers of the screens, together with the properties of
    the session (login, logout, register, restore) and of the post client.

    JavaScript values are an inductive type, exceptions are explicit, and
    every asynchronous function is a computation in a state-and-exception
    monad over the [world]: the React state of [AuthProvider], the contents
    of AsyncStorage, [axios.defaults.headers.common], and the trace of what
    went out (HTTP requests, calls into the UI framework). The remote
    backend, the faults of the on-device store and the engine's [JSON]
    object are the environment [Env]; every theorem quantifies over it. *)

From stdpp Require Import base option list strings gmap fin_maps pretty.
From Stdlib Require Import ZArith Ascii.

Set Warnings "-register-all".

Local Open Scope Z_scope.
Local Open Scope string_scope.

(** ** JavaScript values *)

Module Js.

(** The values that travel through the code: JSON documents plus
    [undefined]. Numbers are the integers (ids, status codes); an object
    is the list of its own properties, the first binding of a name being
    the one that is read. *)
Inductive value : Type :=
| VUndefined
| VNull
| VBool (b : bool)
| VNum (n : Z)
| VStr (s : string)
| VArr (elems : list value)
| VObj (props : list (string * value)).

Record http_response : Type := HttpResponse {
  status : Z;
  data : value
}.

(** What a [throw] carries. [AxiosError] has a [response] when the backend
    answered with a status outside 2xx and none when no answer came. *)
Inductive exn : Type :=
| AxiosError (message : string) (response : option http_response)
| Error (message : string)
| TypeError (message : string)
| SyntaxError (message : string)
| StorageError (message : string).

Inductive completion (A : Type) : Type :=
| Normal (a : A)
| Throw (e : exn).
Arguments Normal {A} a.
Arguments Throw {A} e.

(** ToBoolean: [if (v)], [!v], [a && b], [a || b]. *)
Definition truthy (v : value) : bool :=
  match v with
  | VUndefined | VNull => false
  | VBool b => b
  | VNum n => negb (n =? 0)%Z
  | VStr s => negb (String.eqb s "")
  | VArr _ | VObj _ => true
  end.

Definition nullish (v : value) : bool :=
  match v with
  | VUndefined | VNull => true
  | _ => false
  end.

(** [a || b] and [a && b] on values. *)
Definition or_else (a b : value) : value := if truthy a then a else b.
Definition and_then (a b : value) : value := if truthy a then b else a.

(** [a === b]. Two arrays or objects are equal only when they are the
    same reference; the operands compared in this code base are fields of
    separately received documents, which never are. *)
Definition strict_eq (a b : value) : bool :=
  match a, b with
  | VUndefined, VUndefined => true
  | VNull, VNull => true
  | VBool x, VBool y => Bool.eqb x y
  | VNum x, VNum y => (x =? y)%Z
  | VStr x, VStr y => String.eqb x y
  | _, _ => false
  end.

Definition is_array (v : value) : bool :=
  match v with VArr _ => true | _ => false end.

Fixpoint assoc (k : string) (props : list (string * value)) : value :=
  match props with
  | [] => VUndefined
  | (k', v) :: rest => if String.eqb k k' then v else assoc k rest
  end.

(** The element of an array (or the character of a string) whose index
    prints as [k]. *)
Fixpoint at_index {A : Type} (k : string) (i : nat) (l : list A) : option A :=
  match l with
  | [] => None
  | x :: rest => if String.eqb k (pretty i) then Some x else at_index k (S i) rest
  end.

Definition chars (s : string) : list string :=
  map (fun c => String c EmptyString) (String.list_ascii_of_string s).

(** [v.k] and [v[k]]: reading a property of [undefined] or [null] throws;
    the other primitives have no property of their own beyond the length
    and the characters of a string. Inherited members (methods) are not
    values of this model. *)
Definition get_prop (v : value) (k : string) : completion value :=
  match v with
  | VUndefined =>
      Throw (TypeError ("Cannot read properties of undefined (reading '" ++ k ++ "')"))
  | VNull =>
      Throw (TypeError ("Cannot read properties of null (reading '" ++ k ++ "')"))
  | VBool _ | VNum _ => Normal VUndefined
  | VStr s =>
      if String.eqb k "length" then Normal (VNum (Z.of_nat (String.length s)))
      else Normal (from_option VStr VUndefined (at_index k 0 (chars s)))
  | VArr l =>
      if String.eqb k "length" then Normal (VNum (Z.of_nat (length l)))
      else Normal (default VUndefined (at_index k 0 l))
  | VObj props => Normal (assoc k props)
  end.

(** [v?.k]. *)
Definition get_prop_opt (v : value) (k : string) : value :=
  match get_prop v k with
  | Normal x => x
  | Throw _ => VUndefined
  end.

Fixpoint join_with (sep : string) (l : list string) : string :=
  match l with
  | [] => ""
  | [x] => x
  | x :: rest => x ++ sep ++ join_with sep rest
  end.

(** ToString, as a template literal applies it. *)
Fixpoint to_string (v : value) : string :=
  match v with
  | VUndefined => "undefined"
  | VNull => "null"
  | VBool true => "true"
  | VBool false => "false"
  | VNum n => pretty n
  | VStr s => s
  | VArr l =>
      join_with ","
        ((fix elems (l : list value) : list string :=
            match l with
            | [] => []
            | x :: rest => (if nullish x then "" else to_string x) :: elems rest
            end) l)
  | VObj _ => "[object Object]"
  end.

(** [error.response], [error.message] as the catch blocks read them. *)
Definition exn_response (e : exn) : option http_response :=
  match e with
  | AxiosError _ r => r
  | _ => None
  end.

Definition exn_message (e : exn) : string :=
  match e with
  | AxiosError m _ | Error m | TypeError m | SyntaxError m | StorageError m => m
  end.

(** [error.response?.data?.message]. *)
Definition exn_backend_message (e : exn) : value :=
  match exn_response e with
  | None => VUndefined
  | Some r => get_prop_opt (data r) "message"
  end.

End Js.
Export Js.

(** ** The world and the environment *)

Module Runtime.

Inductive http_method : Type := GET | POST | PUT | DELETE.

(** A request as it leaves axios: [headers] are the per-call headers merged
    over [axios.defaults.headers.common]. *)
Record request : Type := Request {
  method : http_method;
  url : string;
  body : value;
  headers : gmap string string
}.

Inductive storage_op : Type :=
| GetItem (key : string)
| SetItem (key : string) (val : string)
| RemoveItem (key : string).

(** Calls into the UI framework made by the screens: modal alerts, local
    [useState] setters and navigation. *)
Inductive ui_event : Type :=
| Alert (title message : string)
| SetState (name : string) (v : value)
| GoBack
| Navigate (route : string) (params : value).

(** The collaborators that are not part of the code base. [backend] is the
    remote HTTP API: the response to a request, or [None] when no response
    arrives. [storage_faulty] tells which operations the on-device store
    rejects. [JSON_parse] and [JSON_stringify] are the engine's [JSON.parse]
    and [JSON.stringify] ([None] standing for [undefined]). *)
Record Env : Type := {
  platform_os : string;
  backend : request -> option http_response;
  storage_faulty : storage_op -> bool;
  JSON_parse : string -> completion value;
  JSON_stringify : value -> option string
}.

(** The state the code reads and writes. [user], [token], [isLoading] and
    [error] are the [useState] cells of [AuthProvider]; [storage] is
    AsyncStorage; [default_headers] is [axios.defaults.headers.common];
    [sent] and [ui] are the traces, most recent first. *)
Record world : Type := World {
  user : value;
  token : value;
  isLoading : bool;
  error : value;
  storage : gmap string string;
  default_headers : gmap string string;
  sent : list request;
  ui : list ui_event
}.

(** State-and-exception monad of the asynchronous functions: [await] is
    sequencing, a rejected promise is a [Throw]. *)
Definition M (A : Type) : Type := world -> completion A * world.

Definition ret {A} (a : A) : M A := fun w => (Normal a, w).

Definition bind {A B} (m : M A) (k : A -> M B) : M B :=
  fun w =>
    match m w with
    | (Normal a, w') => k a w'
    | (Throw e, w') => (Throw e, w')
    end.

Definition throw {A} (e : exn) : M A := fun w => (Throw e, w).

Definition lift {A} (c : completion A) : M A := fun w => (c, w).

(** [try { m } catch (error) { h error }]. *)
Definition try_catch {A} (m : M A) (h : exn -> M A) : M A :=
  fun w =>
    match m w with
    | (Normal a, w') => (Normal a, w')
    | (Throw e, w') => h e w'
    end.

(** [try { m } finally { f }], [f] not throwing and not returning. *)
Definition try_finally {A} (m : M A) (f : M unit) : M A :=
  fun w =>
    match m w with
    | (c, w') =>
        match f w' with
        | (Normal _, w'') => (c, w'')
        | (Throw e, w'') => (Throw e, w'')
        end
    end.

Definition modify (f : world -> world) : M unit := fun w => (Normal tt, f w).
Definition gets {A} (f : world -> A) : M A := fun w => (Normal (f w), w).

Declare Scope js_scope.
Delimit Scope js_scope with js.
Notation "x <- m ;; k" := (bind m (fun x => k))
  (at level 100, m at next level, right associativity) : js_scope.
Notation "m ;;; k" := (bind m (fun _ => k))
  (at level 100, right associativity) : js_scope.
Local Open Scope js_scope.

(** The [useState] setters of [AuthProvider]. *)
Definition setUser (v : value) : M unit :=
  modify (fun w => World v (token w) (isLoading w) (error w) (storage w)
                     (default_headers w) (sent w) (ui w)).
Definition setToken (v : value) : M unit :=
  modify (fun w => World (user w) v (isLoading w) (error w) (storage w)
                     (default_headers w) (sent w) (ui w)).
Definition setIsLoading (b : bool) : M unit :=
  modify (fun w => World (user w) (token w) b (error w) (storage w)
                     (default_headers w) (sent w) (ui w)).
Definition setError (v : value) : M unit :=
  modify (fun w => World (user w) (token w) (isLoading w) v (storage w)
                     (default_headers w) (sent w) (ui w)).

Definition with_storage (f : gmap string string -> gmap string string) (w : world) : world :=
  World (user w) (token w) (isLoading w) (error w) (f (storage w))
    (default_headers w) (sent w) (ui w).
Definition with_default_headers (f : gmap string string -> gmap string string) (w : world) : world :=
  World (user w) (token w) (isLoading w) (error w) (storage w)
    (f (default_headers w)) (sent w) (ui w).
Definition with_sent (r : request) (w : world) : world :=
  World (user w) (token w) (isLoading w) (error w) (storage w)
    (default_headers w) (r :: sent w) (ui w).
Definition with_ui (e : ui_event) (w : world) : world :=
  World (user w) (token w) (isLoading w) (error w) (storage w)
    (default_headers w) (sent w) (e :: ui w).

Definition emit (e : ui_event) : M unit := modify (with_ui e).

(** [axios.defaults.headers.common[name] = v] and its [delete]. *)
Definition set_default_header (name v : string) : M unit :=
  modify (with_default_headers (insert name v)).
Definition delete_default_header (name : string) : M unit :=
  modify (with_default_headers (delete name)).

Section WithEnv.
Context (env : Env).

(** [API_URL] (the same constant in both modules). *)
Definition API_URL : string :=
  if String.eqb (platform_os env) "android"
  then "http://10.0.2.2:3000"
  else "http://localhost:3000".

(** The promise of an axios call resolves on a 2xx status and rejects
    otherwise (the default [validateStatus]); without a response it rejects
    with a network error. *)
Definition settle (answer : option http_response) : completion http_response :=
  match answer with
  | None => Throw (AxiosError "Network Error" None)
  | Some r =>
      if ((200 <=? status r) && (status r <? 300))%Z
      then Normal r
      else Throw (AxiosError ("Request failed with status code " ++ pretty (status r))
                    (Some r))
  end.

(** The request axios builds in the world [w]: the per-call headers [hs]
    override the default ones. *)
Definition outgoing (w : world) (m : http_method) (u : string) (b : value)
    (hs : gmap string string) : request :=
  Request m u b (hs ∪ default_headers w).

Definition axios_request (m : http_method) (u : string) (b : value)
    (hs : gmap string string) : M http_response :=
  fun w =>
    let req := outgoing w m u b hs in
    (settle (backend env req), with_sent req w).

Definition axios_get (u : string) (hs : gmap string string) : M http_response :=
  axios_request GET u VUndefined hs.
Definition axios_post (u : string) (b : value) (hs : gmap string string) : M http_response :=
  axios_request POST u b hs.
Definition axios_put (u : string) (b : value) (hs : gmap string string) : M http_response :=
  axios_request PUT u b hs.
Definition axios_delete (u : string) (hs : gmap string string) : M http_response :=
  axios_request DELETE u VUndefined hs.

(** AsyncStorage. The store holds strings; a rejected operation leaves it
    as it was; [setItem] rejects a value that is not a string. *)
Definition AsyncStorage_getItem (k : string) : M value :=
  fun w =>
    if storage_faulty env (GetItem k)
    then (Throw (StorageError ("getItem " ++ k)), w)
    else (Normal (from_option VStr VNull (storage w !! k)), w).

Definition AsyncStorage_setItem (k : string) (v : value) : M unit :=
  fun w =>
    match v with
    | VStr s =>
        if storage_faulty env (SetItem k s)
        then (Throw (StorageError ("setItem " ++ k)), w)
        else (Normal tt, with_storage (insert k s) w)
    | _ => (Throw (StorageError ("setItem " ++ k ++ ": the value is not a string")), w)
    end.

Definition AsyncStorage_removeItem (k : string) : M unit :=
  fun w =>
    if storage_faulty env (RemoveItem k)
    then (Throw (StorageError ("removeItem " ++ k)), w)
    else (Normal tt, with_storage (delete k) w).

Definition JSON_stringify_value (v : value) : value :=
  from_option VStr VUndefined (JSON_stringify env v).

End WithEnv.

End Runtime.
Export Runtime.

(** ** contexts/AuthContext.js *)

Module AuthContext.

Local Open Scope js_scope.

(** The value handed to the consumers of the context ([useAuth()]). *)
Record auth_context : Type := AuthContextValue {
  ctx_user : value;
  ctx_token : value;
  ctx_isLoading : bool;
  ctx_error : value;
  ctx_isAuthenticated : bool;
  ctx_isAdmin : bool
}.

(** [user?.isAdmin === true]. *)
Definition isAdmin (w : world) : bool :=
  strict_eq (get_prop_opt (user w) "isAdmin") (VBool true).

(** [!!token]. *)
Definition isAuthenticated (w : world) : bool := truthy (token w).

Definition contextValue (w : world) : auth_context :=
  AuthContextValue (user w) (token w) (isLoading w) (error w)
    (isAuthenticated w) (isAdmin w).

Definition bearer (tok : value) : string := "Bearer " ++ to_string tok.

Section WithEnv.
Context (env : Env).

Definition loadStoredAuthState : M unit :=
  try_finally
    (try_catch
       (storedToken <- AsyncStorage_getItem env "authToken" ;;
        storedUser <- AsyncStorage_getItem env "user" ;;
        if truthy storedToken && truthy storedUser then
          setToken storedToken ;;;
          parsed <- lift (JSON_parse env (to_string storedUser)) ;;
          setUser parsed ;;;
          set_default_header "Authorization" (bearer storedToken)
        else ret tt)
       (fun _ => ret tt))
    (setIsLoading false).

Definition register (name email password : value) : M value :=
  setError VNull ;;;
  try_catch
    (response <- axios_post env (API_URL env ++ "/user/new")
                   (VObj [("name", name); ("email", email); ("password", password)]) ∅ ;;
     ret (data response))
    (fun error =>
       setError (or_else (exn_backend_message error) (VStr "Registration failed")) ;;;
       throw error).

Definition login (email password : value) : M value :=
  setError VNull ;;;
  try_catch
    (response <- axios_post env (API_URL env ++ "/user/login")
                   (VObj [("email", email); ("password", password)]) ∅ ;;
     receivedToken <- lift (get_prop (data response) "token") ;;
     if negb (truthy receivedToken) then throw (Error "No token received from server")
     else
       setToken receivedToken ;;;
       set_default_header "Authorization" (bearer receivedToken) ;;;
       profileResponse <- axios_get env (API_URL env ++ "/user/monprofil")
                            {[ "Authorization" := bearer receivedToken ]} ;;
       userData <- lift (get_prop (data profileResponse) "data") ;;
       setUser userData ;;;
       AsyncStorage_setItem env "authToken" receivedToken ;;;
       AsyncStorage_setItem env "user" (JSON_stringify_value env userData) ;;;
       ret userData)
    (fun error =>
       setError (or_else (exn_backend_message error) (VStr "Login failed")) ;;;
       throw error).

Definition logout : M unit :=
  try_catch
    (setUser VNull ;;;
     setToken VNull ;;;
     AsyncStorage_removeItem env "authToken" ;;;
     AsyncStorage_removeItem env "user" ;;;
     delete_default_header "Authorization")
    (fun _ => ret tt).

Definition getUserProfile : M value :=
  setError VNull ;;;
  try_catch
    (tok <- gets token ;;
     response <- axios_get env (API_URL env ++ "/user/monprofil")
                   {[ "Authorization" := bearer tok ]} ;;
     inner <- (if truthy (data response) then lift (get_prop (data response) "data")
               else ret (data response)) ;;
     if truthy inner then lift (get_prop (data response) "data")
     else ret (data response))
    (fun error =>
       setError (or_else (exn_backend_message error) (VStr "Failed to get profile")) ;;;
       throw error).

Definition getAllUsers : M value :=
  setError VNull ;;;
  try_catch
    (tok <- gets token ;;
     response <- axios_get env (API_URL env ++ "/user/all")
                   {[ "Authorization" := bearer tok ]} ;;
     lift (get_prop (data response) "data"))
    (fun error =>
       setError (or_else (exn_backend_message error) (VStr "Failed to get users")) ;;;
       throw error).

End WithEnv.

End AuthContext.

(** ** services/PostService.js *)

Module PostService.

Local Open Scope js_scope.
Import AuthContext.

Definition json_headers (tok : value) : gmap string string :=
  {[ "Authorization" := bearer tok; "Content-Type" := "application/json" ]}.

Definition auth_headers (tok : value) : gmap string string :=
  {[ "Authorization" := bearer tok ]}.

Section WithEnv.
Context (env : Env).

(** The arguments of the logging calls are evaluated where the source
    evaluates them: reading a property there can throw. *)
Definition getAllPosts : M value :=
  try_catch
    (response <- axios_get env (API_URL env ++ "/post/all") ∅ ;;
     inner <- (if truthy (data response) then lift (get_prop (data response) "data")
               else ret (data response)) ;;
     if truthy inner then
       posts <- lift (get_prop (data response) "data") ;;
       _ <- lift (get_prop posts "length") ;;
       lift (get_prop (data response) "data")
     else
       _ <- (if is_array (data response) then lift (get_prop (data response) "length")
             else ret (VStr "unknown format")) ;;
       ret (data response))
    (fun error => throw error).

Definition getPostById (postId : value) : M value :=
  try_catch
    (response <- axios_get env (API_URL env ++ "/post/" ++ to_string postId) ∅ ;;
     inner <- (if truthy (data response) then lift (get_prop (data response) "data")
               else ret (data response)) ;;
     if truthy inner then
       post <- lift (get_prop (data response) "data") ;;
       _ <- lift (get_prop post "id") ;;
       lift (get_prop (data response) "data")
     else
       _ <- lift (get_prop (data response) "id") ;;
       ret (data response))
    (fun error => throw error).

Definition createPost (postData tok : value) : M value :=
  try_catch
    (response <- axios_post env (API_URL env ++ "/post/new") postData (json_headers tok) ;;
     ret (data response))
    (fun error => throw error).

Definition updatePost (postId postData tok : value) : M value :=
  try_catch
    (response <- axios_put env (API_URL env ++ "/post/update/" ++ to_string postId)
                   postData (json_headers tok) ;;
     ret (data response))
    (fun error => throw error).

Definition updateOwnPost (postId postData tok : value) : M value :=
  try_catch
    (response <- axios_put env (API_URL env ++ "/post/updateOwnPost/" ++ to_string postId)
                   postData (json_headers tok) ;;
     ret (data response))
    (fun error => throw error).

Definition deletePost (postId tok : value) : M value :=
  try_catch
    (response <- axios_delete env (API_URL env ++ "/post/delete/" ++ to_string postId)
                   (auth_headers tok) ;;
     ret (data response))
    (fun error => throw error).

Definition deleteOwnPost (postId tok : value) : M value :=
  try_catch
    (response <- axios_delete env (API_URL env ++ "/post/deleteOwnPost/" ++ to_string postId)
                   (auth_headers tok) ;;
     ret (data response))
    (fun error => throw error).

End WithEnv.

End PostService.

(** ** The post handlers of the screens *)

(** The two buttons of a confirmation dialog. *)
Inductive alert_choice : Type := PressCancel | PressConfirm.

Module Screen.

Local Open Scope js_scope.
Import AuthContext.

(** The text of a string is held as its UTF-8 bytes. A byte of the form
    [10xxxxxx] continues a sequence and carries six bits of the code
    point. *)
Definition continuation (b : Ascii.ascii) : option N :=
  let n := Ascii.N_of_ascii b in
  if (128 <=? n)%N && (n <? 192)%N then Some (n - 128)%N else None.

(** The code point of a well-formed sequence of two, three and four bytes
    (shortest form only). *)
Definition two_bytes (b1 b2 : Ascii.ascii) : option N :=
  let n := Ascii.N_of_ascii b1 in
  match continuation b2 with
  | Some x => if (194 <=? n)%N && (n <? 224)%N then Some ((n - 192) * 64 + x)%N else None
  | None => None
  end.

Definition three_bytes (b1 b2 b3 : Ascii.ascii) : option N :=
  let n := Ascii.N_of_ascii b1 in
  match continuation b2, continuation b3 with
  | Some x, Some y =>
      let cp := ((n - 224) * 4096 + x * 64 + y)%N in
      if (224 <=? n)%N && (n <? 240)%N && (2048 <=? cp)%N then Some cp else None
  | _, _ => None
  end.

Definition four_bytes (b1 b2 b3 b4 : Ascii.ascii) : option N :=
  let n := Ascii.N_of_ascii b1 in
  match continuation b2, continuation b3, continuation b4 with
  | Some x, Some y, Some z =>
      let cp := ((n - 240) * 262144 + x * 4096 + y * 64 + z)%N in
      if (240 <=? n)%N && (n <? 245)%N && (65536 <=? cp)%N && (cp <? 1114112)%N
      then Some cp else None
  | _, _, _ => None
  end.

(** The code points of a text, each with the bytes it was read from. A
    byte that starts no well-formed sequence (every byte below 128 among
    them) stands for the code point of its value. *)
Fixpoint code_points (l : list Ascii.ascii) : list (N * list Ascii.ascii) :=
  match l with
  | [] => []
  | b1 :: r1 =>
      let single := (Ascii.N_of_ascii b1, [b1]) :: code_points r1 in
      match r1 with
      | [] => single
      | b2 :: r2 =>
          match two_bytes b1 b2 with
          | Some cp => (cp, [b1; b2]) :: code_points r2
          | None =>
              match r2 with
              | [] => single
              | b3 :: r3 =>
                  match three_bytes b1 b2 b3 with
                  | Some cp => (cp, [b1; b2; b3]) :: code_points r3
                  | None =>
                      match r3 with
                      | [] => single
                      | b4 :: r4 =>
                          match four_bytes b1 b2 b3 b4 with
                          | Some cp => (cp, [b1; b2; b3; b4]) :: code_points r4
                          | None => single
                          end
                      end
                  end
              end
          end
      end
  end.

(** The white space and the line terminators of ECMAScript, which
    [String.prototype.trim] strips: TAB, LF, VT, FF, CR, SPACE, U+00A0,
    U+1680, U+2000 to U+200A, U+2028, U+2029, U+202F, U+205F, U+3000 and
    U+FEFF. *)
Definition is_space (cp : N) : bool :=
  existsb (N.eqb cp)
    [9; 10; 11; 12; 13; 32; 160; 5760; 8232; 8233; 8239; 8287; 12288; 65279]%N
  || ((8192 <=? cp)%N && (cp <=? 8202)%N).

Fixpoint drop_spaces (l : list (N * list Ascii.ascii)) : list (N * list Ascii.ascii) :=
  match l with
  | [] => []
  | c :: rest => if is_space c.1 then drop_spaces rest else l
  end.

(** [s.trim()]: the text without the white space at its two ends; calling
    it on a value that is not a string throws. *)
Definition trim (v : value) : completion string :=
  match v with
  | VStr s =>
      Normal (String.string_of_list_ascii
                (concat (map snd
                   (rev (drop_spaces (rev (drop_spaces
                      (code_points (String.list_ascii_of_string s)))))))))
  | _ =>
      match get_prop v "trim" with
      | Throw e => Throw e
      | Normal _ => Throw (TypeError "trim is not a function")
      end
  end.

(** [post.userId === user.id]. *)
Definition own_post (ctx : auth_context) (post : value) : completion bool :=
  match get_prop post "userId" with
  | Throw e => Throw e
  | Normal owner =>
      match get_prop (ctx_user ctx) "id" with
      | Throw e => Throw e
      | Normal me => Normal (strict_eq owner me)
      end
  end.

(** ['Failed to delete post: ' + (error.response?.data?.message || error.message)]. *)
Definition delete_failure (error : exn) : string :=
  "Failed to delete post: " ++
  to_string (or_else (exn_backend_message error) (VStr (exn_message error))).

(** The alternatives a list or detail screen renders. *)
Inductive view : Type :=
| LoadingView
| ErrorView (message : value)
| EmptyView
| ListView (items : value)
| DetailView (item : value).

(** The value a [useState] cell holds after the calls of its setter in the
    trace [events] (most recent first), starting from [init]. *)
Fixpoint state_of (name : string) (init : value) (events : list ui_event) : value :=
  match events with
  | [] => init
  | SetState n v :: rest => if String.eqb n name then v else state_of name init rest
  | _ :: rest => state_of name init rest
  end.

End Screen.

Module PostsScreen.

Local Open Scope js_scope.
Import AuthContext PostService Screen.

Section WithEnv.
Context (env : Env) (ctx : auth_context).

(** [fetchPosts] in two parts: what a call runs at once, up to its first
    [await], and what runs when the awaited request of [getAllPosts] has
    been answered. *)
Definition fetchPosts_begin : M unit :=
  emit (SetState "isLoading" (VBool true)).

Definition fetchPosts_resume : M unit :=
  try_finally
    (try_catch
       (response <- getAllPosts env ;;
        emit (SetState "posts" response) ;;;
        emit (SetState "error" VNull))
       (fun _ => emit (SetState "error" (VStr "Failed to load posts. Please try again."))))
    (emit (SetState "isLoading" (VBool false))).

Definition fetchPosts : M unit :=
  fetchPosts_begin ;;; fetchPosts_resume.

(** The [onPress] of the Delete button of the confirmation dialog.
    [fetchPosts()] is not awaited there: the call runs [fetchPosts_begin]
    and hands back a promise that is dropped, the handler goes on to its
    success dialog and ends, and [fetchPosts_resume] runs afterwards,
    outside the [try] of the handler. The requests and the calls into the
    UI are two traces of the world, so the one thing this order decides is
    where the dialog stands among the calls into the UI. *)
Definition handleDeletePost_onPress (postId post : value) : M unit :=
  reloading <-
    try_catch
      (isOwnPost <- lift (own_post ctx post) ;;
       proceed <- (if ctx_isAdmin ctx then
                     _ <- deletePost env postId (ctx_token ctx) ;; ret true
                   else if isOwnPost then
                     _ <- deleteOwnPost env postId (ctx_token ctx) ;; ret true
                   else
                     emit (Alert "Error" "You can only delete your own posts") ;;;
                     ret false) ;;
       if proceed then
         fetchPosts_begin ;;;
         emit (Alert "Success" "Post deleted successfully") ;;;
         ret true
       else ret false)
      (fun error => emit (Alert "Error" (delete_failure error)) ;;; ret false) ;;
  if reloading then fetchPosts_resume else ret tt.

Definition handleDeletePost (postId post : value) (pressed : alert_choice) : M unit :=
  emit (Alert "Confirm Delete" "Are you sure you want to delete this post?") ;;;
  match pressed with
  | PressCancel => ret tt
  | PressConfirm => handleDeletePost_onPress postId post
  end.

Definition canEditPost (post : value) : completion bool :=
  if negb (ctx_isAuthenticated ctx) then Normal false
  else if ctx_isAdmin ctx then Normal true
  else own_post ctx post.

Definition canDeletePost (post : value) : completion bool :=
  if negb (ctx_isAuthenticated ctx) then Normal false
  else if ctx_isAdmin ctx then Normal true
  else own_post ctx post.

(** The [onPress] of the edit button of a card: the route parameters handed
    to the edit screen. *)
Definition editButton_params (item : value) : completion value :=
  match get_prop item "id" with
  | Throw e => Throw e
  | Normal id =>
      match own_post ctx item with
      | Throw e => Throw e
      | Normal own => Normal (VObj [("postId", id); ("isOwnPost", VBool own)])
      end
  end.

(** The alternative the screen renders for its state: the spinner while
    loading, the error with its retry button, the placeholder for an empty
    list, the list otherwise ([posts.length === 0] is evaluated on whatever
    [posts] holds). The rendering of the items themselves is not part of
    it. *)
Definition render (isLoading : bool) (error posts : value) : completion view :=
  if isLoading then Normal LoadingView
  else if truthy error then Normal (ErrorView error)
  else
    match get_prop posts "length" with
    | Throw e => Throw e
    | Normal n => Normal (if strict_eq n (VNum 0) then EmptyView else ListView posts)
    end.

End WithEnv.

End PostsScreen.

Module PostDetailScreen.

Local Open Scope js_scope.
Import AuthContext PostService Screen.

Section WithEnv.
Context (env : Env) (ctx : auth_context).

(** [postId] is the route parameter, [post] the fetched post held in the
    state of the screen. *)
Definition handleDeletePost_onPress (postId post : value) : M unit :=
  try_catch
    (isOwnPost <- lift (own_post ctx post) ;;
     proceed <- (if ctx_isAdmin ctx then
                   _ <- deletePost env postId (ctx_token ctx) ;; ret true
                 else if isOwnPost then
                   _ <- deleteOwnPost env postId (ctx_token ctx) ;; ret true
                 else
                   emit (Alert "Error" "You can only delete your own posts") ;;;
                   ret false) ;;
     if proceed then
       emit (Alert "Success" "Post deleted successfully") ;;;
       emit GoBack
     else ret tt)
    (fun error => emit (Alert "Error" (delete_failure error))).

Definition handleDeletePost (postId post : value) (pressed : alert_choice) : M unit :=
  emit (Alert "Confirm Delete" "Are you sure you want to delete this post?") ;;;
  match pressed with
  | PressCancel => ret tt
  | PressConfirm => handleDeletePost_onPress postId post
  end.

Definition canEditPost (post : value) : completion bool :=
  if negb (truthy post) || negb (ctx_isAuthenticated ctx) then Normal false
  else if ctx_isAdmin ctx then Normal true
  else own_post ctx post.

Definition canDeletePost (post : value) : completion bool :=
  if negb (truthy post) || negb (ctx_isAuthenticated ctx) then Normal false
  else if ctx_isAdmin ctx then Normal true
  else own_post ctx post.

Definition editButton_params (post : value) : completion value :=
  match get_prop post "id" with
  | Throw e => Throw e
  | Normal id =>
      match own_post ctx post with
      | Throw e => Throw e
      | Normal own => Normal (VObj [("postId", id); ("isOwnPost", VBool own)])
      end
  end.

Definition fetchPostDetails (postId : value) : M unit :=
  emit (SetState "isLoading" (VBool true)) ;;;
  try_finally
    (try_catch
       (response <- getPostById env postId ;;
        emit (SetState "post" response) ;;;
        emit (SetState "error" VNull))
       (fun _ =>
          emit (SetState "error" (VStr "Failed to load post details. Please try again."))))
    (emit (SetState "isLoading" (VBool false))).

(** The spinner, the error with its retry button, the not-found notice
    (shown as [EmptyView]) or the post. *)
Definition render (isLoading : bool) (error post : value) : view :=
  if isLoading then LoadingView
  else if truthy error then ErrorView error
  else if negb (truthy post) then EmptyView
  else DetailView post.

End WithEnv.

End PostDetailScreen.

Module CreateEditPostScreen.

Local Open Scope js_scope.
Import AuthContext PostService Screen.

(** [route.params?.postId ? true : false], [route.params?.isOwnPost],
    [route.params?.postId]. *)
Definition isEditing (params : value) : bool := truthy (get_prop_opt params "postId").
Definition isOwnPost (params : value) : value := get_prop_opt params "isOwnPost".
Definition postId (params : value) : value := get_prop_opt params "postId".

Section WithEnv.
Context (env : Env) (ctx : auth_context).

(** [params] are the route parameters, [title] and [content] the text
    fields of the form. *)
Definition handleSubmit (params title content : value) : M unit :=
  t <- lift (trim title) ;;
  if String.eqb t "" then emit (Alert "Error" "Please enter a title")
  else
    c <- lift (trim content) ;;
    if String.eqb c "" then emit (Alert "Error" "Please enter some content")
    else
      emit (SetState "isLoading" (VBool true)) ;;;
      try_finally
        (try_catch
           (let postData := VObj [("title", title); ("content", content)] in
            (if isEditing params then
               (if ctx_isAdmin ctx && negb (truthy (isOwnPost params)) then
                  _ <- updatePost env (postId params) postData (ctx_token ctx) ;; ret tt
                else
                  _ <- updateOwnPost env (postId params) postData (ctx_token ctx) ;; ret tt) ;;;
               emit (Alert "Success" "Post updated successfully")
             else
               _ <- createPost env postData (ctx_token ctx) ;;
               emit (Alert "Success" "Post created successfully")) ;;;
            emit GoBack)
           (fun _ =>
              emit (Alert "Error" (if isEditing params then "Failed to update post"
                                   else "Failed to create post"))))
        (emit (SetState "isLoading" (VBool false))).

(** The effect that loads the post into the form when the screen opens
    for editing. *)
Definition fetchPostDetails (params : value) : M unit :=
  try_finally
    (try_catch
       (response <- getPostById env (postId params) ;;
        title <- lift (get_prop response "title") ;;
        emit (SetState "title" title) ;;;
        content <- lift (get_prop response "content") ;;
        emit (SetState "content" content))
       (fun _ =>
          emit (SetState "error" (VStr "Failed to load post details")) ;;;
          emit (Alert "Error" "Could not load post data")))
    (emit (SetState "isFetchingPost" (VBool false))).

Definition loadEffect (params : value) : M unit :=
  if isEditing params && truthy (postId params) then fetchPostDetails params
  else ret tt.

End WithEnv.

End CreateEditPostScreen.

Module RegisterScreen.

Local Open Scope js_scope.
Import AuthContext Screen.

Section WithEnv.
Context (env : Env).


(** The [onPress] of the Login Now button of the success dialog. *)
Definition loginNow_onPress (email password : value) : M unit :=
  try_catch
    (_ <- login env email password ;; ret tt)
    (fun _ =>
       emit (Alert "Login Failed"
               "Registration was successful, but automatic login failed. Please try logging in manually.") ;;;
       emit (Navigate "Login" VUndefined)).

End WithEnv.

End RegisterScreen.

Module UserProfileScreen.

Local Open Scope js_scope.
Import AuthContext PostService Screen.

(** [allPosts.filter(post => post.userId === user.id)]: the callback runs
    on the elements in order and the first throw ends the call. *)
Fixpoint filter_own (ctx : auth_context) (posts : list value) : completion (list value) :=
  match posts with
  | [] => Normal []
  | post :: rest =>
      match own_post ctx post with
      | Throw e => Throw e
      | Normal keep =>
          match filter_own ctx rest with
          | Throw e => Throw e
          | Normal kept => Normal (if keep then post :: kept else kept)
          end
      end
  end.

Section WithEnv.
Context (env : Env) (ctx : auth_context).

Definition fetchUserPosts : M value :=
  try_catch
    (allPosts <- getAllPosts env ;;
     match allPosts with
     | VArr posts =>
         _ <- lift (get_prop (ctx_user ctx) "id") ;;
         filteredPosts <- lift (filter_own ctx posts) ;;
         ret (VArr filteredPosts)
     | _ => ret (VArr [])
     end)
    (fun _ => ret (VArr [])).

Definition fetchUserData : M unit :=
  emit (SetState "isLoading" (VBool true)) ;;;
  try_finally
    (try_catch
       (profileResponse <- getUserProfile env ;;
        emit (SetState "userProfile" profileResponse) ;;;
        posts <- fetchUserPosts ;;
        emit (SetState "userPosts" posts) ;;;
        emit (SetState "error" VNull))
       (fun _ => emit (SetState "error" (VStr "Failed to load profile data"))))
    (emit (SetState "isLoading" (VBool false))).

Definition handleLogout (pressed : alert_choice) : M unit :=
  emit (Alert "Confirm Logout" "Are you sure you want to log out?") ;;;
  match pressed with
  | PressCancel => ret tt
  | PressConfirm => logout env
  end.

End WithEnv.

End UserProfileScreen.

Module UsersListScreen.

Local Open Scope js_scope.
Import AuthContext Screen.

Section WithEnv.
Context (env : Env) (ctx : auth_context).

Definition fetchUsers : M unit :=
  if negb (ctx_isAdmin ctx) then
    emit (SetState "error" (VStr "You do not have permission to access this page")) ;;;
    emit (SetState "isLoading" (VBool false))
  else
    emit (SetState "isLoading" (VBool true)) ;;;
    try_finally
      (try_catch
         (response <- getAllUsers env ;;
          emit (SetState "users" response) ;;;
          emit (SetState "error" VNull))
         (fun _ => emit (SetState "error" (VStr "Failed to load users. Please try again."))))
      (emit (SetState "isLoading" (VBool false))).

End WithEnv.

End UsersListScreen.

Module TokenDebugScreen.

Local Open Scope js_scope.
Import AuthContext Screen.

(** [error.response?.status] and [error.response?.data]. *)
Definition exn_status (e : exn) : value :=
  match exn_response e with
  | None => VUndefined
  | Some r => VNum (status r)
  end.
Definition exn_details (e : exn) : value :=
  match exn_response e with
  | None => VUndefined
  | Some r => data r
  end.

Section WithEnv.
Context (env : Env).

Definition checkStorage : M unit :=
  try_catch
    (storedToken <- AsyncStorage_getItem env "authToken" ;;
     storedUser <- AsyncStorage_getItem env "user" ;;
     parsed <- (if truthy storedUser then lift (JSON_parse env (to_string storedUser))
                else ret VNull) ;;
     emit (SetState "storageData" (VObj [("token", storedToken); ("user", parsed)])))
    (fun _ => ret tt).

(** The address is the literal of the source, whatever the platform. *)
Definition testApiCall : M unit :=
  emit (SetState "isLoading" (VBool true)) ;;;
  try_finally
    (try_catch
       (currentToken <- AsyncStorage_getItem env "authToken" ;;
        response <- axios_get env "http://10.0.2.2:3000/user/monprofil"
                      {[ "Authorization" := bearer currentToken ]} ;;
        emit (SetState "testResponse"
                (VObj [("success", VBool true); ("status", VNum (status response));
                       ("data", data response)])))
       (fun error =>
          emit (SetState "testResponse"
                  (VObj [("success", VBool false); ("status", exn_status error);
                         ("error", VStr (exn_message error));
                         ("details", exn_details error)]))))
    (emit (SetState "isLoading" (VBool false))).

End WithEnv.

End TokenDebugScreen.

(** ** navigation/AppNavigator.js *)

Module AppNavigator.

Import AuthContext.

Inductive component : Type :=
| LoginScreen
| RegisterScreen
| PostsScreen
| PostDetailScreen
| CreateEditPostScreen
| UserProfileScreen
| UsersListScreen.

(** What the root renders: the spinner or one of the two stacks. *)
Inductive root : Type := Spinner | AuthNavigator | MainNavigator.

Definition AppNavigator (ctx : auth_context) : root :=
  if ctx_isLoading ctx then Spinner
  else if ctx_isAuthenticated ctx then MainNavigator
  else AuthNavigator.

(** The screens of a stack, by route name, in the order of registration. *)
Definition routes (r : root) : list (string * component) :=
  match r with
  | Spinner => []
  | AuthNavigator => [("Login", LoginScreen); ("Register", RegisterScreen)]
  | MainNavigator =>
      [("Posts", PostsScreen); ("PostDetail", PostDetailScreen);
       ("NewPost", CreateEditPostScreen); ("EditPost", CreateEditPostScreen);
       ("UserProfile", UserProfileScreen); ("UsersList", UsersListScreen)]
  end.

Fixpoint lookup_route (name : string) (table : list (string * component)) :
    option component :=
  match table with
  | [] => None
  | (n, c) :: rest => if String.eqb n name then Some c else lookup_route name rest
  end.

Definition route_component (r : root) (name : string) : option component :=
  lookup_route name (routes r).

(** The routes the buttons of [CustomHeader] lead to, with the menu shown
    as the main stack configures it: the users list for an admin only, the
    profile for everyone. *)
Definition menu (ctx : auth_context) : list string :=
  (if ctx_isAdmin ctx then ["UsersList"] else []) ++ ["UserProfile"].

End AppNavigator.

(** ** Vocabulary of the properties *)

Module Spec.

Import AuthContext.

(** The parts of the session a caller can observe: the two cells, the
    durable store and the default headers. *)
Definition same_session (w w' : world) : Prop :=
  token w' = token w /\ user w' = user w /\
  storage w' = storage w /\ default_headers w' = default_headers w.

(** The envelope rule shared by the two readers: the [data] member of the
    body when it is truthy, the body otherwise. *)
Definition unwrap (body : value) : value :=
  if truthy (get_prop_opt body "data") then get_prop_opt body "data" else body.

(** A fresh process over the same device: the [useState] cells of
    [AuthProvider] hold their initial values, axios its stock defaults, and
    the durable store what was left in it. *)
Definition restart (w : world) : world :=
  World VNull VNull true VNull (storage w) ∅ [] [].

(** The requests that went out between [w] and [w']. *)
Definition issued (w w' : world) : list request :=
  take (length (sent w') - length (sent w)) (sent w').

(** Some request between [w] and [w'] used method [m] on the address [u]. *)
Definition invoked (m : http_method) (u : string) (w w' : world) : Prop :=
  exists req, req ∈ issued w w' /\ method req = m /\ url req = u.

Section WithEnv.
Context (env : Env).

(** The requests of [register] and of the two steps of [login], as axios
    sends them from the world [w]; the profile request leaves after the
    default header has been set. *)
Definition register_request (w : world) (name email password : value) : request :=
  outgoing w POST (API_URL env ++ "/user/new")
    (VObj [("name", name); ("email", email); ("password", password)]) ∅.

Definition login_request (w : world) (email password : value) : request :=
  outgoing w POST (API_URL env ++ "/user/login")
    (VObj [("email", email); ("password", password)]) ∅.

Definition profile_request (w : world) (tok : value) : request :=
  outgoing (with_default_headers (insert "Authorization" (bearer tok)) w)
    GET (API_URL env ++ "/user/monprofil") VUndefined
    {[ "Authorization" := bearer tok ]}.

Definition all_posts_request (w : world) : request :=
  outgoing w GET (API_URL env ++ "/post/all") VUndefined ∅.

Definition post_request (w : world) (postId : value) : request :=
  outgoing w GET (API_URL env ++ "/post/" ++ to_string postId) VUndefined ∅.

(** The addresses of the four mutations of an existing post. *)
Definition update_url (postId : value) : string :=
  API_URL env ++ "/post/update/" ++ to_string postId.
Definition updateOwn_url (postId : value) : string :=
  API_URL env ++ "/post/updateOwnPost/" ++ to_string postId.
Definition delete_url (postId : value) : string :=
  API_URL env ++ "/post/delete/" ++ to_string postId.
Definition deleteOwn_url (postId : value) : string :=
  API_URL env ++ "/post/deleteOwnPost/" ++ to_string postId.

(** The request of [createPost]. *)
Definition create_request (w : world) (postData tok : value) : request :=
  outgoing w POST (API_URL env ++ "/post/new") postData (PostService.json_headers tok).

(** The requests with which the delete handlers and the form leave, and
    the one each of them picks for the actor [ctx]. *)
Definition delete_request (ctx : auth_context) (w : world) (postId : value) : request :=
  outgoing w DELETE (delete_url postId) VUndefined
    (PostService.auth_headers (ctx_token ctx)).
Definition deleteOwn_request (ctx : auth_context) (w : world) (postId : value) : request :=
  outgoing w DELETE (deleteOwn_url postId) VUndefined
    (PostService.auth_headers (ctx_token ctx)).
Definition update_request (ctx : auth_context) (w : world) (postId postData : value) :
    request :=
  outgoing w PUT (update_url postId) postData (PostService.json_headers (ctx_token ctx)).
Definition updateOwn_request (ctx : auth_context) (w : world) (postId postData : value) :
    request :=
  outgoing w PUT (updateOwn_url postId) postData (PostService.json_headers (ctx_token ctx)).

Definition delete_choice (ctx : auth_context) (w : world) (postId : value) (own : bool) :
    list request :=
  if ctx_isAdmin ctx then [delete_request ctx w postId]
  else if own then [deleteOwn_request ctx w postId]
  else [].

Definition update_choice (ctx : auth_context) (w : world) (postId postData : value)
    (own : bool) : request :=
  if ctx_isAdmin ctx && negb own then update_request ctx w postId postData
  else updateOwn_request ctx w postId postData.

Definition form_data (title content : value) : value :=
  VObj [("title", title); ("content", content)].

(** Editing from a card of the list or from the detail screen, for the
    actor [ctx]: the edit button is rendered when [canEditPost] holds,
    pressing it opens the edit screen with [editButton_params], and the form
    is submitted there with the fields [title] and [content]. *)
Definition edit_from_list (ctx : auth_context) (item title content : value) : M unit :=
  match PostsScreen.canEditPost ctx item with
  | Throw e => throw e
  | Normal false => ret tt
  | Normal true =>
      bind (lift (PostsScreen.editButton_params ctx item)) (fun params =>
      bind (emit (Navigate "EditPost" params)) (fun _ =>
      CreateEditPostScreen.handleSubmit env ctx params title content))
  end.

Definition edit_from_detail (ctx : auth_context) (post title content : value) : M unit :=
  match PostDetailScreen.canEditPost ctx post with
  | Throw e => throw e
  | Normal false => ret tt
  | Normal true =>
      bind (lift (PostDetailScreen.editButton_params ctx post)) (fun params =>
      bind (emit (Navigate "EditPost" params)) (fun _ =>
      CreateEditPostScreen.handleSubmit env ctx params title content))
  end.

(** A text field that passes the required-field check of the form. *)
Definition filled (field : value) : Prop :=
  exists s, Screen.trim field = Normal s /\ s <> "".

End WithEnv.

End Spec.

(** ** Sample collaborators for the examples *)

Module Sample.

Import AuthContext.

Definition dquote : string := String (Ascii.ascii_of_nat 34) EmptyString.

Definition hex_digit (n : nat) : string :=
  String (Ascii.ascii_of_nat (if Nat.ltb n 10 then 48 + n else 87 + n)) EmptyString.

(** One character inside a JSON string literal. *)
Definition escape (c : Ascii.ascii) : string :=
  let n := Ascii.nat_of_ascii c in
  if Nat.eqb n 34 then "\" ++ dquote
  else if Nat.eqb n 92 then "\\"
  else if Nat.eqb n 8 then "\b"
  else if Nat.eqb n 9 then "\t"
  else if Nat.eqb n 10 then "\n"
  else if Nat.eqb n 12 then "\f"
  else if Nat.eqb n 13 then "\r"
  else if Nat.ltb n 32 then "\u00" ++ hex_digit (n / 16) ++ hex_digit (n mod 16)
  else String c EmptyString.

Definition quote (s : string) : string :=
  dquote ++ String.concat "" (map escape (String.list_ascii_of_string s)) ++ dquote.

(** [JSON.stringify] on the values of the model; [None] is [undefined]. *)
Fixpoint stringify (v : value) : option string :=
  match v with
  | VUndefined => None
  | VNull => Some "null"
  | VBool true => Some "true"
  | VBool false => Some "false"
  | VNum n => Some (pretty n)
  | VStr s => Some (quote s)
  | VArr l =>
      Some ("[" ++
            join_with ","
              ((fix elems (l : list value) : list string :=
                  match l with
                  | [] => []
                  | x :: rest => default "null" (stringify x) :: elems rest
                  end) l) ++ "]")
  | VObj props =>
      Some ("{" ++
            join_with ","
              ((fix members (ps : list (string * value)) : list string :=
                  match ps with
                  | [] => []
                  | (k, x) :: rest =>
                      match stringify x with
                      | None => members rest
                      | Some s => (quote k ++ ":" ++ s) :: members rest
                      end
                  end) props) ++ "}")
  end.

(** A user record, a second one with the admin flag, and a post of each. *)
Definition alice : value :=
  VObj [("id", VNum 1); ("name", VStr "alice"); ("isAdmin", VBool false)].
Definition root : value :=
  VObj [("id", VNum 2); ("name", VStr "root"); ("isAdmin", VBool true)].
Definition post_of_alice : value :=
  VObj [("id", VNum 7); ("title", VStr "T"); ("content", VStr "C"); ("userId", VNum 1)].
Definition post_of_root : value :=
  VObj [("id", VNum 8); ("title", VStr "T"); ("content", VStr "C"); ("userId", VNum 2)].

(** [JSON.parse] on the texts the examples keep in the store: the literal
    [null] and the serialized sample users. *)
Definition parse (s : string) : completion value :=
  if String.eqb s "null" then Normal VNull
  else if bool_decide (stringify alice = Some s) then Normal alice
  else if bool_decide (stringify root = Some s) then Normal root
  else Throw (SyntaxError "Unexpected token in JSON").

Definition never (_ : storage_op) : bool := false.

Definition sample_env (api : request -> option http_response)
    (faulty : storage_op -> bool) : Env :=
  {| platform_os := "ios"; backend := api; storage_faulty := faulty;
     JSON_parse := parse; JSON_stringify := stringify |}.

Definition base : string := "http://localhost:3000".

Definition path_is (req : request) (m : http_method) (p : string) : bool :=
  match method req, m with
  | GET, GET | POST, POST | PUT, PUT | DELETE, DELETE => String.eqb (url req) (base ++ p)
  | _, _ => false
  end.

(** A backend that accepts the credentials, serves the profile of [alice]
    and two posts. *)
Definition api_up (req : request) : option http_response :=
  if path_is req POST "/user/login" then
    Some (HttpResponse 200 (VObj [("token", VStr "tok-1")]))
  else if path_is req POST "/user/new" then
    Some (HttpResponse 201 (VObj [("message", VStr "created")]))
  else if path_is req GET "/user/monprofil" then
    Some (HttpResponse 200 (VObj [("data", alice)]))
  else if path_is req GET "/post/all" then
    Some (HttpResponse 200 (VObj [("data", VArr [post_of_alice; post_of_root])]))
  else if path_is req GET "/post/7" then
    Some (HttpResponse 200 (VObj [("data", post_of_alice)]))
  else if path_is req GET "/post/8" then
    Some (HttpResponse 200 post_of_root)
  else if path_is req DELETE "/post/delete/7" || path_is req DELETE "/post/delete/8" then
    Some (HttpResponse 200 (VObj [("message", VStr "deleted")]))
  else if path_is req DELETE "/post/deleteOwnPost/7" then
    Some (HttpResponse 200 (VObj [("message", VStr "deleted")]))
  else if path_is req PUT "/post/update/7" then
    Some (HttpResponse 200 (VObj [("message", VStr "updated")]))
  else if path_is req PUT "/post/updateOwnPost/7" then
    Some (HttpResponse 200 (VObj [("message", VStr "updated")]))
  else
    Some (HttpResponse 404 (VObj [("message", VStr "not found")])).

(** The same backend rejecting the credentials. *)
Definition api_wrong_password (req : request) : option http_response :=
  if path_is req POST "/user/login" then
    Some (HttpResponse 401 (VObj [("message", VStr "wrong password")]))
  else api_up req.

(** The same backend failing on the profile. *)
Definition api_profile_down (req : request) : option http_response :=
  if path_is req GET "/user/monprofil" then
    Some (HttpResponse 500 (VObj [("message", VStr "internal error")]))
  else api_up req.

(** The same backend serving a profile without a user record. *)
Definition api_null_profile (req : request) : option http_response :=
  if path_is req GET "/user/monprofil" then
    Some (HttpResponse 200 (VObj [("data", VNull)]))
  else api_up req.

(** A store that rejects the removal of the token entry. *)
Definition remove_token_fails (op : storage_op) : bool :=
  match op with
  | RemoveItem k => String.eqb k "authToken"
  | _ => false
  end.

(** The world of a process that has just started on a clean device, and
    the one of a running session of [alice]. *)
Definition fresh : world := World VNull VNull true VNull ∅ ∅ [] [].

Definition signed_in (u : value) (tok : string) : world :=
  World u (VStr tok) false VNull
    (<[ "user" := default "null" (stringify u) ]> {[ "authToken" := tok ]})
    {[ "Authorization" := "Bearer " ++ tok ]} [] [].

(** The same backend with no post at all. *)
Definition api_no_posts (req : request) : option http_response :=
  if path_is req GET "/post/all" then Some (HttpResponse 200 (VArr []))
  else api_up req.

Definition env_up : Env := sample_env api_up never.
Definition env_wrong_password : Env := sample_env api_wrong_password never.
Definition env_profile_down : Env := sample_env api_profile_down never.
Definition env_null_profile : Env := sample_env api_null_profile never.
Definition env_no_posts : Env := sample_env api_no_posts never.
Definition env_store_fault : Env := sample_env api_up remove_token_fails.

Definition email : value := VStr "alice@example.org".

(** A no-break space, U+00A0, as the two bytes of its UTF-8 form. *)
Definition nbsp : string :=
  String (Ascii.ascii_of_nat 194) (String (Ascii.ascii_of_nat 160) EmptyString).

Definition password : value := VStr "secret".

Definition token_response : http_response :=
  HttpResponse 200 (VObj [("token", VStr "tok-1")]).
Definition rejection (code : Z) (message : string) : exn :=
  AxiosError ("Request failed with status code " ++ pretty code)
    (Some (HttpResponse code (VObj [("message", VStr message)]))).

(** The method and the address of the requests of a trace. *)
Definition endpoints (trace : list request) : list (http_method * string) :=
  map (fun req => (method req, url req)) trace.

End Sample.

(** ** Vocabulary of the further properties *)

Module Flow.

Import AuthContext.

(** The engine's [JSON] gives back [v] from the text it writes for it. *)
Definition round_trips (env : Env) (v : value) : Prop :=
  forall s, JSON_stringify env v = Some s -> s <> "" /\ JSON_parse env s = Normal v.

(** A text field that fails the required-field check of the post form. *)
Definition blank (field : value) : Prop := Screen.trim field = Normal "".

(** What the list screen and the detail screen show after the calls of
    their setters in [events], their cells starting from the initial values
    of the source: loading, no error, no posts and no post. *)
Definition list_shown (events : list ui_event) : completion Screen.view :=
  PostsScreen.render
    (truthy (Screen.state_of "isLoading" (VBool true) events))
    (Screen.state_of "error" VNull events)
    (Screen.state_of "posts" (VArr []) events).


(** The calls into the UI that the list screen makes once the request of
    its loader has been settled with [c], most recent first. *)
Definition list_reloaded (c : completion http_response) : list ui_event :=
  SetState "isLoading" (VBool false) ::
  match c with
  | Normal r => [SetState "error" VNull; SetState "posts" (Spec.unwrap (data r))]
  | Throw _ => [SetState "error" (VStr "Failed to load posts. Please try again.")]
  end.

(** What a promise of axios hands to the caller that reads [response.data]. *)
Definition payload (c : completion http_response) : completion value :=
  match c with
  | Normal r => Normal (data r)
  | Throw e => Throw e
  end.

(** What the error cell of the context holds after an operation that ended
    with [c]: nothing after a success, the message of the backend or the
    [fallback] of the operation after a failure. *)
Definition reported {A : Type} (fallback : string) (c : completion A) : value :=
  match c with
  | Normal _ => VNull
  | Throw e => or_else (exn_backend_message e) (VStr fallback)
  end.

Section WithEnv.
Context (env : Env).

(** The requests of [getUserProfile] and [getAllUsers] from the world [w]. *)
Definition own_profile_request (w : world) : request :=
  outgoing w GET (API_URL env ++ "/user/monprofil") VUndefined
    {[ "Authorization" := bearer (token w) ]}.

Definition users_request (w : world) : request :=
  outgoing w GET (API_URL env ++ "/user/all") VUndefined
    {[ "Authorization" := bearer (token w) ]}.

(** The request of the debug screen, with the token [stored] in the store. *)
Definition debug_request (w : world) (stored : value) : request :=
  outgoing w GET "http://10.0.2.2:3000/user/monprofil" VUndefined
    {[ "Authorization" := bearer stored ]}.


End WithEnv.

End Flow.

(** ** Further sample collaborators *)

Module Scenario.

Import AuthContext Sample.

(** A backend that answers the list of posts with [null], and one that
    refuses every deletion. *)
Definition api_null_posts (req : request) : option http_response :=
  if path_is req GET "/post/all" then Some (HttpResponse 200 VNull)
  else api_up req.

Definition api_delete_refused (req : request) : option http_response :=
  match method req with
  | DELETE => Some (HttpResponse 403 (VObj [("message", VStr "forbidden")]))
  | _ => api_up req
  end.

Definition env_null_posts : Env := sample_env api_null_posts never.
Definition env_delete_refused : Env := sample_env api_delete_refused never.

(** A process that has finished starting and has no session, the session
    of [alice], and the context her screens see. *)
Definition signed_out : world := World VNull VNull false VNull ∅ ∅ [] [].
Definition alice_world : world := signed_in alice "tok-0".
Definition alice_ctx : auth_context := contextValue alice_world.

(** The route parameters with which [alice] edits her post. *)
Definition edit_params : value := VObj [("postId", VNum 7); ("isOwnPost", VBool true)].

End Scenario.

(** * Properties *)

Module SessionProperties.

Import AuthContext Spec.

Ltac run :=
  unfold login, register, logout, loadStoredAuthState, bind, try_catch, try_finally,
    throw, ret, lift, axios_post, axios_get, axios_request, setError, setToken, setUser,
    setIsLoading, set_default_header, delete_default_header, modify, gets;
  cbn [fst snd user token isLoading error storage default_headers sent ui
       with_sent with_storage with_default_headers with_ui].

(** The restore that leaves the session as it was: every part of the
    statement that is not closed by computation speaks of a change. *)
Ltac untouched :=
  eexists; (split; [reflexivity|]); cbn; split_and!; try done;
  try (intros [[]|[[]|[]]]; done);
  try (intros Htoken Huser; rewrite Htoken, Huser;
       split_and!; try done; split; [by intros [[=] _]|]).

Section WithEnv.
Context (env : Env).

(** C4. When the backend rejects the credentials, [login] throws the
    error of the rejection and the token, the user, the durable store and
    the default headers are what they were before the call. *)
Theorem login_rejected_leaves_session (email password : value) (w : world) (e : exn) :
  settle (backend env (login_request env w email password)) = Throw e ->
  exists w',
    login env email password w = (Throw e, w') /\ same_session w w'.
Proof.
  intros Hrej. run. unfold login_request, outgoing in Hrej.
  unfold outgoing. cbn [default_headers]. rewrite Hrej.
  eexists. split; [reflexivity|]. repeat split.
Qed.

(** C8. [register] returns the payload of the backend or throws its
    error, and in both cases the token, the user, the durable store and the
    default headers are what they were before the call. *)
Theorem register_leaves_session (name email password : value) (w : world) :
  exists c w',
    register env name email password w = (c, w') /\
    same_session w w' /\
    match settle (backend env (register_request env w name email password)) with
    | Normal r => c = Normal (data r)
    | Throw e => c = Throw e
    end.
Proof.
  run. unfold register_request, outgoing. cbn [default_headers].
  destruct (settle _) as [r|e]; do 2 eexists; (split; [reflexivity|]);
    repeat split.
Qed.

(** What [login] does once the token [t] has been received and the
    profile request is rejected with [e]. *)
Lemma login_profile_rejected (email password : value) (w : world)
    (r : http_response) (t : value) (e : exn) :
  settle (backend env (login_request env w email password)) = Normal r ->
  get_prop (data r) "token" = Normal t ->
  truthy t = true ->
  settle (backend env (profile_request env w t)) = Throw e ->
  login env email password w =
    (Throw e,
     World (user w) t (isLoading w)
       (or_else (exn_backend_message e) (VStr "Login failed"))
       (storage w)
       (<[ "Authorization" := bearer t ]> (default_headers w))
       (profile_request env w t :: login_request env w email password :: sent w)
       (ui w)).
Proof.
  intros Hlogin Htok Htruthy Hprofile. run.
  unfold login_request, profile_request, outgoing, with_default_headers in *.
  cbn [default_headers] in *.
  rewrite Hlogin, Htok, Htruthy. cbn [negb]. run.
  unfold outgoing. cbn [default_headers]. rewrite Hprofile. reflexivity.
Qed.

(** C1, as the code has it. When the token exchange succeeds and the
    profile request is rejected, [login] throws the error of the rejection,
    the received token stays in the session and in the default header, and
    the user cell keeps what it held before the call: a session that had no
    user record is left authenticated without one. *)
Theorem login_profile_failure_retains_token (email password : value) (w : world)
    (r : http_response) (t : value) (e : exn) :
  settle (backend env (login_request env w email password)) = Normal r ->
  get_prop (data r) "token" = Normal t ->
  truthy t = true ->
  settle (backend env (profile_request env w t)) = Throw e ->
  exists w',
    login env email password w = (Throw e, w') /\
    token w' = t /\
    isAuthenticated w' = true /\
    default_headers w' !! "Authorization" = Some (bearer t) /\
    user w' = user w /\
    (user w = VNull -> user w' = VNull).
Proof.
  intros Hlogin Htok Htruthy Hprofile.
  eexists. split; [by apply (login_profile_rejected _ _ _ r)|].
  cbn. repeat split; try done. by rewrite lookup_insert_eq.
Qed.

(** Every run of [login] that returns has gone through both requests and
    both writes. *)
Lemma login_returns_inv (email password : value) (w w' : world) (v : value) :
  login env email password w = (Normal v, w') ->
  exists (r p : http_response) (t s : string),
    settle (backend env (login_request env w email password)) = Normal r /\
    get_prop (data r) "token" = Normal (VStr t) /\
    settle (backend env (profile_request env w (VStr t))) = Normal p /\
    get_prop (data p) "data" = Normal v /\
    JSON_stringify env v = Some s /\
    w' = World v (VStr t) (isLoading w) VNull
           (<[ "user" := s ]> (<[ "authToken" := t ]> (storage w)))
           (<[ "Authorization" := bearer (VStr t) ]> (default_headers w))
           (profile_request env w (VStr t) :: login_request env w email password :: sent w)
           (ui w).
Proof.
  run. unfold login_request, profile_request, outgoing, with_default_headers.
  unfold outgoing. cbn [default_headers].
  destruct (settle (backend env (Request POST _ _ _))) as [r|e] eqn:Hlogin; [|intros; simplify_eq].
  destruct (get_prop (data r) "token") as [t|e] eqn:Htok; [|intros; simplify_eq].
  destruct (truthy t) eqn:Htruthy; cbn [negb]; [|intros; simplify_eq].
  run. unfold outgoing. cbn [default_headers].
  destruct (settle (backend env (Request GET _ _ _))) as [p|e] eqn:Hprofile; [|intros; simplify_eq].
  destruct (get_prop (data p) "data") as [u|e] eqn:Hdata; [|intros; simplify_eq].
  run. unfold AsyncStorage_setItem, JSON_stringify_value.
  destruct t as [| | | |t| |]; try by (intros; simplify_eq).
  destruct (storage_faulty env (SetItem "authToken" t)); [intros; simplify_eq|].
  destruct (JSON_stringify env u) as [s|] eqn:Hjson; cbn [from_option];
    [|intros; simplify_eq].
  cbn [storage with_storage].
  destruct (storage_faulty env (SetItem "user" s)); [intros; simplify_eq|].
  intros [= <- <-]. exists r, p, t, s. by repeat split.
Qed.

(** The durable store changes only in a run of [login] whose profile
    request was answered. *)
Lemma login_store_changed (email password : value) (w : world) :
  storage (login env email password w).2 <> storage w ->
  exists (r p : http_response) (t : value),
    settle (backend env (login_request env w email password)) = Normal r /\
    get_prop (data r) "token" = Normal t /\
    truthy t = true /\
    settle (backend env (profile_request env w t)) = Normal p.
Proof.
  run. unfold login_request, profile_request, outgoing, with_default_headers.
  unfold outgoing. cbn [default_headers].
  destruct (settle (backend env (Request POST _ _ _))) as [r|e] eqn:Hlogin; [|by intros []].
  destruct (get_prop (data r) "token") as [t|e] eqn:Htok; [|by intros []].
  destruct (truthy t) eqn:Htruthy; cbn [negb]; [|by intros []].
  run. unfold outgoing. cbn [default_headers].
  destruct (settle (backend env (Request GET _ _ _))) as [p|e] eqn:Hprofile; [|by intros []].
  intros _. by exists r, p, t.
Qed.

(** C10. When the token exchange succeeds and the profile request is
    rejected, the durable store is left as it was, so the process that
    starts next finds what it would have found without the call; and the
    store changes only in a run whose profile request was answered. *)
Theorem failed_profile_fetch_writes_nothing (email password : value) (w : world) :
  (forall (r : http_response) (t : value) (e : exn),
     settle (backend env (login_request env w email password)) = Normal r ->
     get_prop (data r) "token" = Normal t ->
     truthy t = true ->
     settle (backend env (profile_request env w t)) = Throw e ->
     storage (login env email password w).2 = storage w /\
     restart (login env email password w).2 = restart w) /\
  (storage (login env email password w).2 <> storage w ->
   exists (r p : http_response) (t : value),
     settle (backend env (login_request env w email password)) = Normal r /\
     get_prop (data r) "token" = Normal t /\
     truthy t = true /\
     settle (backend env (profile_request env w t)) = Normal p).
Proof.
  split; [|apply login_store_changed].
  intros r t e Hlogin Htok Htruthy Hprofile.
  by rewrite (login_profile_rejected _ _ _ r t e).
Qed.

(** C2. After a call of [login] that returns, the session holds the token
    of the backend and the user record of the profile response, the store
    holds the token under [authToken] and the serialized user under [user],
    the default [Authorization] header is the bearer of that token, and
    every request that axios then builds without an [Authorization] header
    of its own carries it. *)
Theorem login_success_establishes_session (email password : value) (w w' : world)
    (v : value) :
  login env email password w = (Normal v, w') ->
  exists (r p : http_response) (t s : string),
    settle (backend env (login_request env w email password)) = Normal r /\
    get_prop (data r) "token" = Normal (VStr t) /\
    settle (backend env (profile_request env w (VStr t))) = Normal p /\
    get_prop (data p) "data" = Normal v /\
    JSON_stringify env v = Some s /\
    token w' = VStr t /\
    user w' = v /\
    storage w' !! "authToken" = Some t /\
    storage w' !! "user" = Some s /\
    default_headers w' !! "Authorization" = Some ("Bearer " ++ t) /\
    (forall (m : http_method) (u : string) (b : value) (hs : gmap string string),
       hs !! "Authorization" = None ->
       headers (outgoing w' m u b hs) !! "Authorization" = Some ("Bearer " ++ t)).
Proof.
  intros Hrun.
  destruct (login_returns_inv _ _ _ _ _ Hrun)
    as (r & p & t & s & Hlogin & Htok & Hprofile & Hdata & Hjson & ->).
  exists r, p, t, s. cbn [token user storage default_headers].
  repeat split; try done.
  - by rewrite lookup_insert_ne, lookup_insert_eq.
  - by rewrite lookup_insert_eq.
  - by rewrite lookup_insert_eq.
  - intros m u b hs Hnone. unfold outgoing. cbn [headers default_headers].
    rewrite lookup_union_r by done. by rewrite lookup_insert_eq.
Qed.

(** C3, as the code has it. [logout] returns without throwing and leaves
    the token and the user cells empty, so the session is no longer
    authenticated; when the store accepts both removals, the two entries
    are gone from it and the default [Authorization] header is gone. *)
Theorem logout_clears_session (w : world) :
  exists w',
    logout env w = (Normal tt, w') /\
    token w' = VNull /\
    user w' = VNull /\
    isAuthenticated w' = false /\
    (storage_faulty env (RemoveItem "authToken") = false ->
     storage_faulty env (RemoveItem "user") = false ->
     storage w' = delete "user" (delete "authToken" (storage w)) /\
     storage w' !! "authToken" = None /\
     storage w' !! "user" = None /\
     default_headers w' !! "Authorization" = None).
Proof.
  run. unfold AsyncStorage_removeItem.
  destruct (storage_faulty env (RemoveItem "authToken")) eqn:Htok.
  { eexists. split; [reflexivity|]. by repeat split. }
  cbn [storage with_storage].
  destruct (storage_faulty env (RemoveItem "user")) eqn:Huser.
  { eexists. split; [reflexivity|]. by repeat split. }
  eexists. split; [reflexivity|]. cbn.
  repeat split; try done.
  - by rewrite lookup_delete_ne, lookup_delete_eq.
  - by rewrite lookup_delete_eq.
  - by rewrite lookup_delete_eq.
Qed.

(** What [AsyncStorage.getItem] hands back is truthy exactly for a
    non-empty entry. *)
Lemma truthy_stored (o : option string) :
  truthy (from_option VStr VNull o) = true <-> exists s, o = Some s /\ s <> "".
Proof.
  destruct o as [s|]; cbn.
  - rewrite negb_true_iff, String.eqb_neq. split.
    + intros Hne. by exists s.
    + by intros (s' & [= <-] & Hne).
  - split; [done|]. by intros (s & [=] & _).
Qed.

(** When the stored text of the user does not parse, the restore has
    already set the token: it ends with the token, without the user and
    without the header. *)
Lemma restore_unparsable_user (w : world) (t u : string) (e : exn) :
  storage_faulty env (GetItem "authToken") = false ->
  storage_faulty env (GetItem "user") = false ->
  storage w !! "authToken" = Some t -> storage w !! "user" = Some u ->
  t <> "" -> u <> "" ->
  JSON_parse env u = Throw e ->
  loadStoredAuthState env w =
    (Normal tt,
     World (user w) (VStr t) false (error w) (storage w) (default_headers w)
       (sent w) (ui w)).
Proof.
  intros Hf1 Hf2 Ht Hu Htne Hune Hparse. run. unfold AsyncStorage_getItem.
  rewrite Hf1, Hf2, Ht, Hu. cbn [from_option truthy].
  apply String.eqb_neq in Htne, Hune. rewrite Htne, Hune. cbn [negb andb to_string].
  run. by rewrite Hparse.
Qed.

(** C9, as the code has it. Restoring never throws and ends the loading
    phase. The session is touched only when both entries are in the store
    and not empty; when one of them is missing, and when the store cannot be
    read, nothing is restored. When both are there, the store can be read
    and the text of the user parses, the session holds the stored token, the
    parsed user and the bearer header. Starting from an empty session, the
    user is present (truthy, as the code tests it) after the restore only if
    the token is; the token is present without a user exactly when both
    entries are there and not empty, the store can be read, and the text of
    the user does not parse or parses to a falsy value; so both are present
    together whenever that text parses to a truthy value. *)
Theorem restore_requires_both_entries (w : world) :
  exists w',
    loadStoredAuthState env w = (Normal tt, w') /\
    isLoading w' = false /\
    storage w' = storage w /\
    ((token w' <> token w \/ user w' <> user w \/
      default_headers w' <> default_headers w) ->
     exists t u,
       storage w !! "authToken" = Some t /\ storage w !! "user" = Some u /\
       t <> "" /\ u <> "") /\
    ((storage w !! "authToken" = None \/ storage w !! "user" = None) ->
     same_session w w') /\
    ((storage_faulty env (GetItem "authToken") = true \/
      storage_faulty env (GetItem "user") = true) ->
     same_session w w') /\
    (forall t u v,
       storage w !! "authToken" = Some t -> storage w !! "user" = Some u ->
       t <> "" -> u <> "" ->
       storage_faulty env (GetItem "authToken") = false ->
       storage_faulty env (GetItem "user") = false ->
       JSON_parse env u = Normal v ->
       token w' = VStr t /\ user w' = v /\
       default_headers w' !! "Authorization" = Some ("Bearer " ++ t)) /\
    (truthy (token w) = false -> truthy (user w) = false ->
     (truthy (user w') = true -> truthy (token w') = true) /\
     (truthy (token w') = true /\ truthy (user w') = false <->
      exists t u,
        storage w !! "authToken" = Some t /\ storage w !! "user" = Some u /\
        t <> "" /\ u <> "" /\
        storage_faulty env (GetItem "authToken") = false /\
        storage_faulty env (GetItem "user") = false /\
        forall v, JSON_parse env u = Normal v -> truthy v = false) /\
     ((forall u, storage w !! "user" = Some u ->
         exists v, JSON_parse env u = Normal v /\ truthy v = true) ->
      (truthy (token w') = true <-> truthy (user w') = true))).
Proof.
  run. unfold AsyncStorage_getItem.
  destruct (storage_faulty env (GetItem "authToken")) eqn:Hf1.
  { untouched. by intros (t & u & _ & _ & _ & _ & [=] & _). }
  destruct (storage_faulty env (GetItem "user")) eqn:Hf2.
  { untouched. by intros (t & u & _ & _ & _ & _ & _ & [=] & _). }
  destruct (truthy (from_option VStr VNull (storage w !! "authToken"))) eqn:Ht1;
    cbn [andb].
  2:{ assert (forall t, storage w !! "authToken" = Some t -> t = "") as Hempty.
      { intros t Ht. rewrite Ht in Ht1. cbn in Ht1.
        by apply negb_false_iff, String.eqb_eq in Ht1. }
      untouched.
      - intros t u v Ht _ Hne. by destruct Hne, (Hempty t).
      - intros (t & u & Ht & _ & Hne & _). by destruct Hne, (Hempty t). }
  destruct (truthy (from_option VStr VNull (storage w !! "user"))) eqn:Ht2.
  2:{ assert (forall u, storage w !! "user" = Some u -> u = "") as Hempty.
      { intros u Hu. rewrite Hu in Ht2. cbn in Ht2.
        by apply negb_false_iff, String.eqb_eq in Ht2. }
      untouched.
      - intros t u v _ Hu _ Hne. by destruct Hne, (Hempty u).
      - intros (t & u & _ & Hu & _ & Hne & _). by destruct Hne, (Hempty u). }
  apply truthy_stored in Ht1 as (t & Ht & Htne).
  apply truthy_stored in Ht2 as (u & Hu & Hune).
  assert (truthy (VStr t) = true) as Hpresent
    by (cbn; by rewrite negb_true_iff, String.eqb_neq).
  rewrite Ht, Hu. cbn [from_option to_string]. run.
  destruct (JSON_parse env u) as [v|e] eqn:Hparse.
  - eexists. split; [reflexivity|].
    cbn [token user isLoading storage default_headers with_default_headers].
    split_and!; try done.
    + intros _. by exists t, u.
    + intros [[=]|[=]].
    + intros [[=]|[=]].
    + intros t' u' v' [= <-] [= <-] _ _ _ _. rewrite Hparse. intros [= <-].
      split_and!; try done. by rewrite lookup_insert_eq.
    + intros _ _. split_and!; [done| |].
      * split.
        -- intros [_ Hfalsy]. exists t, u. split_and!; try done.
           intros v' Hv'. rewrite Hparse in Hv'. by injection Hv' as <-.
        -- intros (t' & u' & _ & [= <-] & _ & _ & _ & _ & Hfalsy).
           split; [done|]. by apply Hfalsy.
      * intros Hrecord. destruct (Hrecord u eq_refl) as (v' & Hv' & Htruthy).
        rewrite Hparse in Hv'. injection Hv' as <-. by rewrite Htruthy.
  - eexists. split; [reflexivity|].
    cbn [token user isLoading storage default_headers with_default_headers].
    split_and!; try done.
    + intros _. by exists t, u.
    + intros [[=]|[=]].
    + intros [[=]|[=]].
    + intros t' u' v' _ [= <-] _ _ _ _. by rewrite Hparse.
    + intros _ Habsent. split_and!; [done| |].
      * split; [|done]. intros _. exists t, u. split_and!; try done.
        intros v. by rewrite Hparse.
      * intros Hrecord. destruct (Hrecord u eq_refl) as (v' & Hv' & _). congruence.
Qed.


End WithEnv.

Import Sample.

(** A wrong password on a device that has no session. *)
Lemma login_rejected_leaves_session_witness :
  settle (backend env_wrong_password
            (login_request env_wrong_password fresh email password)) =
    Throw (rejection 401 "wrong password") /\
  exists w',
    login env_wrong_password email password fresh =
      (Throw (rejection 401 "wrong password"), w') /\
    same_session fresh w'.
Proof.
  split; [vm_compute; reflexivity|].
  apply login_rejected_leaves_session. vm_compute; reflexivity.
Defined.

(** The profile service is down on a device that has no session. *)
Lemma login_profile_failure_retains_token_witness :
  settle (backend env_profile_down
            (login_request env_profile_down fresh email password)) =
    Normal token_response /\
  get_prop (data token_response) "token" = Normal (VStr "tok-1") /\
  truthy (VStr "tok-1") = true /\
  settle (backend env_profile_down
            (profile_request env_profile_down fresh (VStr "tok-1"))) =
    Throw (rejection 500 "internal error") /\
  exists w',
    login env_profile_down email password fresh =
      (Throw (rejection 500 "internal error"), w') /\
    token w' = VStr "tok-1" /\
    isAuthenticated w' = true /\
    default_headers w' !! "Authorization" = Some (bearer (VStr "tok-1")) /\
    user w' = user fresh /\
    (user fresh = VNull -> user w' = VNull).
Proof.
  split_and!; [vm_compute; reflexivity..|].
  apply (login_profile_failure_retains_token env_profile_down email password fresh
           token_response (VStr "tok-1") (rejection 500 "internal error"));
    vm_compute; reflexivity.
Defined.

(** C1 as stated fails where a session exists: the profile service is down
    while [alice] is signed in. The token exchange succeeds, the profile
    request is rejected, [login] throws, the new token replaces the old one,
    and the session still holds the record of [alice]. *)
Lemma login_profile_failure_keeps_previous_user :
  settle (backend env_profile_down
            (login_request env_profile_down (signed_in alice "tok-0") email password)) =
    Normal token_response /\
  get_prop (data token_response) "token" = Normal (VStr "tok-1") /\
  settle (backend env_profile_down
            (profile_request env_profile_down (signed_in alice "tok-0") (VStr "tok-1"))) =
    Throw (rejection 500 "internal error") /\
  (login env_profile_down email password (signed_in alice "tok-0")).1 =
    Throw (rejection 500 "internal error") /\
  token (login env_profile_down email password (signed_in alice "tok-0")).2 =
    VStr "tok-1" /\
  user (login env_profile_down email password (signed_in alice "tok-0")).2 = alice /\
  alice <> VNull.
Proof. split_and!; [vm_compute; reflexivity..|discriminate]. Qed.

Lemma failed_profile_fetch_writes_nothing_witness :
  settle (backend env_profile_down
            (login_request env_profile_down fresh email password)) =
    Normal token_response /\
  get_prop (data token_response) "token" = Normal (VStr "tok-1") /\
  truthy (VStr "tok-1") = true /\
  settle (backend env_profile_down
            (profile_request env_profile_down fresh (VStr "tok-1"))) =
    Throw (rejection 500 "internal error") /\
  storage (login env_profile_down email password fresh).2 = storage fresh /\
  restart (login env_profile_down email password fresh).2 = restart fresh.
Proof.
  split_and!; [vm_compute; reflexivity..| |].
  - apply (proj1 (failed_profile_fetch_writes_nothing env_profile_down email password
                    fresh) token_response (VStr "tok-1")
                  (rejection 500 "internal error"));
      vm_compute; reflexivity.
  - apply (proj1 (failed_profile_fetch_writes_nothing env_profile_down email password
                    fresh) token_response (VStr "tok-1")
                  (rejection 500 "internal error"));
      vm_compute; reflexivity.
Defined.

Lemma login_success_establishes_session_witness :
  login env_up email password fresh =
    (Normal alice, (login env_up email password fresh).2) /\
  token (login env_up email password fresh).2 = VStr "tok-1" /\
  user (login env_up email password fresh).2 = alice /\
  storage (login env_up email password fresh).2 !! "authToken" = Some "tok-1" /\
  storage (login env_up email password fresh).2 !! "user" = stringify alice /\
  default_headers (login env_up email password fresh).2 !! "Authorization" =
    Some "Bearer tok-1".
Proof.
  assert (login env_up email password fresh =
            (Normal alice, (login env_up email password fresh).2)) as Hrun
    by (vm_compute; reflexivity).
  split; [exact Hrun|].
  destruct (login_success_establishes_session env_up email password fresh _ alice Hrun)
    as (r & p & t & s & Hlogin & Htok & Hprofile & Hdata & Hjson & Htoken & Huser &
        Hstored & Hstored' & Hheader & Hlater).
  vm_compute in Hlogin. injection Hlogin as <-.
  vm_compute in Htok. injection Htok as <-.
  split_and!; first [done | by rewrite Hstored', <-Hjson].
Defined.

(** Signing out on a healthy device. *)
Lemma logout_clears_session_witness :
  storage_faulty env_up (RemoveItem "authToken") = false /\
  storage_faulty env_up (RemoveItem "user") = false /\
  exists w',
    logout env_up (signed_in alice "tok-0") = (Normal tt, w') /\
    token w' = VNull /\ user w' = VNull /\ isAuthenticated w' = false /\
    storage w' !! "authToken" = None /\ storage w' !! "user" = None /\
    default_headers w' !! "Authorization" = None.
Proof.
  split; [reflexivity|]. split; [reflexivity|].
  destruct (logout_clears_session env_up (signed_in alice "tok-0"))
    as (w' & Hrun & Htoken & Huser & Hauth & Hstore).
  destruct (Hstore eq_refl eq_refl) as (_ & Hgone & Hgone' & Hheader).
  exists w'. by split_and!.
Defined.

(** C3 as stated fails when the store rejects the first removal: [logout]
    returns, but both entries are still in the store and the default header
    is still in place. *)
Lemma logout_store_fault_keeps_entries :
  (logout env_store_fault (signed_in alice "tok-0")).1 = Normal tt /\
  storage (logout env_store_fault (signed_in alice "tok-0")).2 !! "authToken" =
    Some "tok-0" /\
  storage (logout env_store_fault (signed_in alice "tok-0")).2 !! "user" =
    stringify alice /\
  default_headers (logout env_store_fault (signed_in alice "tok-0")).2
    !! "Authorization" = Some "Bearer tok-0".
Proof. split_and!; vm_compute; reflexivity. Qed.

(** Starting again on the device of a running session of [alice]. *)
Lemma restore_requires_both_entries_witness :
  storage (restart (signed_in alice "tok-0")) !! "authToken" = Some "tok-0" /\
  stringify alice = storage (restart (signed_in alice "tok-0")) !! "user" /\
  JSON_parse env_up (default "" (stringify alice)) = Normal alice /\
  truthy alice = true /\
  exists w',
    loadStoredAuthState env_up (restart (signed_in alice "tok-0")) = (Normal tt, w') /\
    isLoading w' = false /\
    token w' = VStr "tok-0" /\ user w' = alice /\
    default_headers w' !! "Authorization" = Some "Bearer tok-0" /\
    (truthy (token w') = true <-> truthy (user w') = true).
Proof.
  split_and!; [vm_compute; reflexivity..|].
  destruct (restore_requires_both_entries env_up (restart (signed_in alice "tok-0")))
    as (w' & Hrun & Hloaded & _ & _ & _ & _ & Hboth & Hpair).
  destruct (Hboth "tok-0" (default "" (stringify alice)) alice)
    as (Htoken & Huser & Hheader); [vm_compute; reflexivity| |done|..].
  1-5: vm_compute; try reflexivity; discriminate.
  destruct (Hpair eq_refl eq_refl) as (_ & _ & Hboth').
  exists w'. split_and!; [done..|]. apply Hboth'.
  intros u Hu. vm_compute in Hu. injection Hu as <-.
  exists alice. split; vm_compute; reflexivity.
Defined.

(** C9 as stated fails after a sign-in whose profile response carried no
    user record: the store then holds the token and the text [null], and
    the next start restores the token without a user. *)
Lemma restore_token_without_user :
  (login env_null_profile email password fresh).1 = Normal VNull /\
  storage (login env_null_profile email password fresh).2 !! "authToken" =
    Some "tok-1" /\
  storage (login env_null_profile email password fresh).2 !! "user" = Some "null" /\
  token (loadStoredAuthState env_null_profile
           (restart (login env_null_profile email password fresh).2)).2 =
    VStr "tok-1" /\
  user (loadStoredAuthState env_null_profile
          (restart (login env_null_profile email password fresh).2)).2 = VNull.
Proof. split_and!; vm_compute; reflexivity. Qed.

End SessionProperties.

Module PostServiceProperties.

Import AuthContext PostService Spec.

Ltac run :=
  unfold getAllPosts, getPostById, bind, try_catch, throw, ret, lift,
    axios_get, axios_request;
  cbn [fst snd].

(** The decimal form of a number never starts with a character that is
    not a digit. *)
Lemma pretty_N_go_head (x : N) (s : string) (c : Ascii.ascii) (k : string) :
  (forall d, pretty_N_char d <> c) ->
  s <> String c k -> pretty_N_go x s <> String c k.
Proof.
  intros Hc. revert s. induction (N.lt_wf_0 x) as [x _ IH]. intros s Hs.
  destruct (decide (x = 0)%N) as [->|Hpos].
  - by rewrite pretty_N_go_0.
  - rewrite pretty_N_go_step by lia. apply IH.
    + apply N.div_lt; lia.
    + intros [= Hd _]. by apply (Hc (x `mod` 10)%N).
Qed.

Lemma pretty_nat_head (i : nat) (c : Ascii.ascii) (k : string) :
  (forall d, pretty_N_char d <> c) -> pretty i <> String c k.
Proof.
  intros Hc. unfold pretty, pretty_nat, pretty, pretty_N.
  case_decide.
  - intros [= Hd _]. by apply (Hc 0%N).
  - apply pretty_N_go_head; [done|]. done.
Qed.

Lemma no_digit_d (d : N) : pretty_N_char d <> "d"%char.
Proof. unfold pretty_N_char. by repeat case_match. Qed.

(** An array has no property named [data]. *)
Lemma at_index_data {A : Type} (l : list A) (i : nat) : at_index "data" i l = None.
Proof.
  revert i. induction l as [|x l IH]; intros i; [done|]. cbn [at_index].
  destruct (String.eqb_spec "data" (pretty i)) as [Heq|_]; [|apply IH].
  symmetry in Heq. by apply pretty_nat_head in Heq; [|apply no_digit_d].
Qed.

Lemma get_prop_array_data (l : list value) : get_prop (VArr l) "data" = Normal VUndefined.
Proof. cbn. by rewrite at_index_data. Qed.

(** Reading a property of a value that is neither [undefined] nor [null]
    does not throw. *)
Lemma get_prop_defined (v : value) (k : string) :
  nullish v = false -> get_prop v k = Normal (get_prop_opt v k).
Proof.
  unfold get_prop_opt. destruct v; try done; cbn; by repeat case_match.
Qed.

Lemma truthy_not_nullish (v : value) : truthy v = true -> nullish v = false.
Proof. by destruct v. Qed.

Section WithEnv.
Context (env : Env).

Lemma getAllPosts_resolved (w : world) (r : http_response) :
  settle (backend env (all_posts_request env w)) = Normal r ->
  getAllPosts env w =
    (Normal (unwrap (data r)), with_sent (all_posts_request env w) w).
Proof.
  intros Hres. run. unfold all_posts_request in *. rewrite Hres.
  unfold unwrap.
  destruct (truthy (data r)) eqn:Hbody.
  - rewrite (get_prop_defined (data r)) by by apply truthy_not_nullish.
    destruct (truthy (get_prop_opt (data r) "data")) eqn:Hinner.
    + by rewrite (get_prop_defined (get_prop_opt _ _)) by by apply truthy_not_nullish.
    + destruct (is_array (data r)); [|done].
      by rewrite (get_prop_defined (data r)) by by apply truthy_not_nullish.
  - rewrite Hbody.
    assert (truthy (get_prop_opt (data r) "data") = false) as ->
      by by destruct (data r) as [| |[]|[]|[]| |].
    by destruct (data r).
Qed.

Lemma unwrap_array (posts : list value) : unwrap (VArr posts) = VArr posts.
Proof. unfold unwrap, get_prop_opt. by rewrite get_prop_array_data. Qed.

Lemma unwrap_envelope (props : list (string * value)) (inner : value) :
  assoc "data" props = inner -> truthy inner = true -> unwrap (VObj props) = inner.
Proof. intros <- Htruthy. unfold unwrap, get_prop_opt. cbn. by rewrite Htruthy. Qed.

(** C7. Whatever the backend answers with a 2xx status, [getAllPosts]
    returns without throwing: the [data] member of the body when there is a
    truthy one, the body itself otherwise. A list of posts, bare or in a
    [data] envelope, comes back element for element in the order of the
    backend; the empty list comes back as the empty list. *)
Theorem getAllPosts_returns_backend_sequence (w : world) (r : http_response) :
  settle (backend env (all_posts_request env w)) = Normal r ->
  exists w',
    getAllPosts env w = (Normal (unwrap (data r)), w') /\
    (forall posts,
       data r = VArr posts -> getAllPosts env w = (Normal (VArr posts), w')) /\
    (forall props posts,
       data r = VObj props -> assoc "data" props = VArr posts ->
       getAllPosts env w = (Normal (VArr posts), w')) /\
    (data r = VArr [] \/ data r = VObj [("data", VArr [])] ->
     getAllPosts env w = (Normal (VArr []), w')).
Proof.
  intros Hres. eexists. rewrite (getAllPosts_resolved _ _ Hres).
  split_and!; [done| | |].
  - intros posts ->. by rewrite unwrap_array.
  - intros props posts -> Hdata. by rewrite (unwrap_envelope _ (VArr posts)).
  - by intros [-> | ->].
Qed.

Lemma getPostById_rejected (postId : value) (w : world) (e : exn) :
  settle (backend env (post_request env w postId)) = Throw e ->
  getPostById env postId w = (Throw e, with_sent (post_request env w postId) w).
Proof. intros Hrej. run. unfold post_request in *. by rewrite Hrej. Qed.

Lemma getPostById_resolved (postId : value) (w : world) (r : http_response) :
  settle (backend env (post_request env w postId)) = Normal r ->
  nullish (data r) = false ->
  getPostById env postId w =
    (Normal (unwrap (data r)), with_sent (post_request env w postId) w).
Proof.
  intros Hres Hbody. run. unfold post_request in *. rewrite Hres.
  unfold unwrap. rewrite !(get_prop_defined (data r)) by done.
  destruct (truthy (data r)) eqn:Htruthy.
  - destruct (truthy (get_prop_opt (data r) "data")) eqn:Hinner; [|done].
    by rewrite (get_prop_defined (get_prop_opt _ _)) by by apply truthy_not_nullish.
  - rewrite Htruthy.
    assert (truthy (get_prop_opt (data r) "data") = false) as ->
      by by destruct (data r) as [| |[]|[]|[]| |].
    done.
Qed.

(** A 2xx answer whose body is [null] or absent makes [getPostById] throw
    where it reads the [id] of the body for the log. *)
Lemma getPostById_empty_body (postId : value) (w : world) (r : http_response) :
  settle (backend env (post_request env w postId)) = Normal r ->
  nullish (data r) = true ->
  exists msg w', getPostById env postId w = (Throw (TypeError msg), w').
Proof.
  intros Hres Hbody. run. unfold post_request in *. rewrite Hres.
  destruct (data r); try done; cbn; eauto.
Qed.

(** Every run of [getPostById] that returns hands back the unwrapped body
    of a 2xx answer. *)
Lemma getPostById_returns_inv (postId : value) (w w' : world) (v : value) :
  getPostById env postId w = (Normal v, w') ->
  exists r,
    settle (backend env (post_request env w postId)) = Normal r /\
    v = unwrap (data r).
Proof.
  destruct (settle (backend env (post_request env w postId))) as [r|e] eqn:Hres.
  - destruct (nullish (data r)) eqn:Hbody.
    + destruct (getPostById_empty_body _ _ _ Hres Hbody) as (msg & w1 & ->).
      intros [=].
    + rewrite (getPostById_resolved _ _ _ Hres Hbody). intros [= <- _]. by exists r.
  - rewrite (getPostById_rejected _ _ _ Hres). intros [=].
Qed.

(** C6. [getPostById] throws the error of a rejected request, the 404 of
    a missing post among them. A call that returns hands back the post of
    a 2xx answer: the [data] member of the body when there is a truthy one
    and the body itself otherwise, so that a post record in a [data]
    envelope comes back unwrapped and a bare post record comes back as it
    is; and the call does return whenever the answer has a body. *)
Theorem getPostById_unwraps_or_fails (postId : value) (w : world) :
  (forall e,
     settle (backend env (post_request env w postId)) = Throw e ->
     exists w', getPostById env postId w = (Throw e, w')) /\
  (forall r,
     backend env (post_request env w postId) = Some r -> status r = 404%Z ->
     exists w',
       getPostById env postId w =
         (Throw (AxiosError "Request failed with status code 404" (Some r)), w')) /\
  (forall v w',
     getPostById env postId w = (Normal v, w') ->
     exists r,
       settle (backend env (post_request env w postId)) = Normal r /\
       v = unwrap (data r) /\
       (forall props post,
          data r = VObj props -> assoc "data" props = VObj post -> v = VObj post) /\
       (forall post,
          data r = VObj post -> truthy (assoc "data" post) = false -> v = VObj post)) /\
  (forall r,
     settle (backend env (post_request env w postId)) = Normal r ->
     nullish (data r) = false ->
     exists w', getPostById env postId w = (Normal (unwrap (data r)), w')).
Proof.
  split_and!.
  - intros e Hrej. eexists. by apply getPostById_rejected.
  - intros r Hanswer Hstatus. eexists. apply getPostById_rejected.
    rewrite Hanswer. unfold settle. by rewrite Hstatus.
  - intros v w' (r & Hres & ->)%getPostById_returns_inv. exists r.
    split_and!; [done|done| |].
    + intros props post -> Hdata. by apply unwrap_envelope.
    + intros post -> Hnone. unfold unwrap, get_prop_opt. cbn. by rewrite Hnone.
  - intros r Hres Hbody. eexists. by apply getPostById_resolved.
Qed.

End WithEnv.

Import Sample.

(** A backend without posts answers with the empty list, and the empty
    list is what comes back. *)
Lemma getAllPosts_returns_backend_sequence_witness :
  settle (backend env_no_posts (all_posts_request env_no_posts fresh)) =
    Normal (HttpResponse 200 (VArr [])) /\
  exists w', getAllPosts env_no_posts fresh = (Normal (VArr []), w').
Proof.
  split; [vm_compute; reflexivity|].
  destruct (getAllPosts_returns_backend_sequence env_no_posts fresh
              (HttpResponse 200 (VArr [])))
    as (w' & _ & _ & _ & Hempty); [vm_compute; reflexivity|].
  exists w'. apply Hempty. by left.
Defined.

(** Post 7 is served in an envelope, post 99 does not exist. *)
Lemma getPostById_unwraps_or_fails_witness :
  getPostById env_up (VNum 7) fresh =
    (Normal post_of_alice, (getPostById env_up (VNum 7) fresh).2) /\
  (exists r,
     settle (backend env_up (post_request env_up fresh (VNum 7))) = Normal r /\
     post_of_alice = unwrap (data r)) /\
  backend env_up (post_request env_up fresh (VNum 99)) =
    Some (HttpResponse 404 (VObj [("message", VStr "not found")])) /\
  (exists w', getPostById env_up (VNum 99) fresh =
                (Throw (rejection 404 "not found"), w')).
Proof.
  assert (getPostById env_up (VNum 7) fresh =
            (Normal post_of_alice, (getPostById env_up (VNum 7) fresh).2)) as Hrun
    by (vm_compute; reflexivity).
  split_and!; [exact Hrun| |vm_compute; reflexivity|].
  - destruct (getPostById_unwraps_or_fails env_up (VNum 7) fresh) as (_ & _ & Hinv & _).
    destruct (Hinv _ _ Hrun) as (r & Hres & Hv & _). by exists r.
  - destruct (getPostById_unwraps_or_fails env_up (VNum 99) fresh) as (_ & Hmissing & _).
    apply (Hmissing (HttpResponse 404 (VObj [("message", VStr "not found")])));
      [vm_compute; reflexivity|reflexivity].
Defined.

End PostServiceProperties.

Module ScreenProperties.

Import AuthContext PostService Screen Spec.

Lemma issued_app (w w' : world) (new : list request) :
  sent w' = (new ++ sent w)%list -> issued w w' = new.
Proof.
  intros Hsent. unfold issued. rewrite Hsent, length_app.
  replace (length new + length (sent w) - length (sent w))%nat with (length new) by lia.
  apply take_app_length.
Qed.

Lemma invoked_app (w w' : world) (new : list request) (m : http_method) (u : string) :
  sent w' = (new ++ sent w)%list ->
  invoked m u w w' <-> exists req, req ∈ new /\ method req = m /\ url req = u.
Proof. intros Hsent. unfold invoked. by rewrite (issued_app _ _ new). Qed.

Section WithEnv.
Context (env : Env).

Lemma own_not_privileged_delete (postId : value) :
  deleteOwn_url env postId <> delete_url env postId.
Proof.
  unfold deleteOwn_url, delete_url. intros Heq.
  apply (inj (String.app _)) in Heq. discriminate Heq.
Qed.

Lemma own_not_privileged_update (postId : value) :
  updateOwn_url env postId <> update_url env postId.
Proof.
  unfold updateOwn_url, update_url. intros Heq.
  apply (inj (String.app _)) in Heq. discriminate Heq.
Qed.

(** [getAllPosts] sends its one request whatever comes back. *)
Lemma getAllPosts_sent (w : world) :
  sent (getAllPosts env w).2 = all_posts_request env w :: sent w.
Proof.
  unfold getAllPosts, bind, try_catch, throw, ret, lift, axios_get, axios_request,
    all_posts_request.
  destruct (settle _) as [r|e]; [|done].
  destruct (truthy (data r)) eqn:Hbody.
  - destruct (get_prop (data r) "data") as [inner|e] eqn:Hdata; [|done].
    destruct (truthy inner).
    + by destruct (get_prop inner "length").
    + destruct (is_array (data r)); [|done]. by destruct (get_prop (data r) "length").
  - rewrite Hbody. destruct (is_array (data r)); [|done].
    by destruct (get_prop (data r) "length").
Qed.

Lemma fetchPosts_resume_sent (w : world) :
  sent (PostsScreen.fetchPosts_resume env w).2 = all_posts_request env w :: sent w.
Proof.
  unfold PostsScreen.fetchPosts_resume, bind, try_catch, try_finally, emit, modify.
  pose proof (getAllPosts_sent w) as Hsent.
  destruct (getAllPosts env _) as [[v|e] w1]; cbn in *; by rewrite Hsent.
Qed.

(** Reading the trace: when the requests of a run are some reads followed
    by the [chosen] ones, a mutation was invoked exactly when it is among
    the chosen ones. *)
Lemma invoked_chosen (w w' : world) (rest chosen : list request)
    (m : http_method) (u : string) :
  sent w' = (rest ++ chosen ++ sent w)%list ->
  (forall req, req ∈ rest -> method req = GET) ->
  m <> GET ->
  invoked m u w w' <-> exists req, req ∈ chosen /\ method req = m /\ url req = u.
Proof.
  intros Hsent Hrest Hm. rewrite (invoked_app w w' (rest ++ chosen)%list)
    by by rewrite <-(assoc_L app).
  split.
  - intros (req & [Hin|Hin]%elem_of_app & Hmethod & Hurl); [|by exists req].
    apply Hrest in Hin. congruence.
  - intros (req & Hin & Hmethod & Hurl). exists req. rewrite elem_of_app. auto.
Qed.

Lemma delete_from_list_trace (ctx : auth_context) (postId post : value) (own : bool)
    (w : world) :
  own_post ctx post = Normal own ->
  exists rest,
    (forall req, req ∈ rest -> method req = GET) /\
    (delete_choice env ctx w postId own = [] -> rest = []) /\
    sent (PostsScreen.handleDeletePost_onPress env ctx postId post w).2 =
      (rest ++ delete_choice env ctx w postId own ++ sent w)%list.
Proof.
  intros Hown.
  unfold PostsScreen.handleDeletePost_onPress, PostsScreen.fetchPosts_begin,
    delete_choice, delete_request,
    deleteOwn_request, delete_url, deleteOwn_url, deletePost, deleteOwnPost,
    bind, try_catch, lift, ret, throw, emit, modify, axios_delete, axios_request.
  rewrite Hown. destruct (ctx_isAdmin ctx); [|destruct own].
  - destruct (settle _) as [r|e]; [|by (exists []; split_and!; [intros ? ?%elem_of_nil| |])].
    rewrite fetchPosts_resume_sent. cbn [sent with_ui with_sent].
    eexists [_]; split_and!; [|by intros [=]|done].
    by intros req ->%list_elem_of_singleton.
  - destruct (settle _) as [r|e]; [|by (exists []; split_and!; [intros ? ?%elem_of_nil| |])].
    rewrite fetchPosts_resume_sent. cbn [sent with_ui with_sent].
    eexists [_]; split_and!; [|by intros [=]|done].
    by intros req ->%list_elem_of_singleton.
  - by (exists []; split_and!; [intros ? ?%elem_of_nil| |]).
Qed.

Lemma delete_from_detail_trace (ctx : auth_context) (postId post : value) (own : bool)
    (w : world) :
  own_post ctx post = Normal own ->
  sent (PostDetailScreen.handleDeletePost_onPress env ctx postId post w).2 =
    (delete_choice env ctx w postId own ++ sent w)%list.
Proof.
  intros Hown.
  unfold PostDetailScreen.handleDeletePost_onPress, delete_choice, delete_request,
    deleteOwn_request, delete_url, deleteOwn_url, deletePost, deleteOwnPost,
    bind, try_catch, lift, ret, throw, emit, modify, axios_delete, axios_request.
  rewrite Hown. destruct (ctx_isAdmin ctx); [|destruct own].
  - by destruct (settle _) as [r|e].
  - by destruct (settle _) as [r|e].
  - done.
Qed.

(** What the choice of the delete handlers amounts to. *)
Lemma delete_choice_spec (ctx : auth_context) (w w' : world) (postId : value) (own : bool)
    (rest : list request) :
  (forall req, req ∈ rest -> method req = GET) ->
  sent w' = (rest ++ delete_choice env ctx w postId own ++ sent w)%list ->
  (invoked DELETE (delete_url env postId) w w' <-> ctx_isAdmin ctx = true) /\
  (invoked DELETE (deleteOwn_url env postId) w w' <->
     ctx_isAdmin ctx = false /\ own = true) /\
  (ctx_isAdmin ctx = false -> own = false -> issued w w' = rest).
Proof.
  intros Hrest Hsent.
  rewrite !(invoked_chosen w w' rest (delete_choice env ctx w postId own)) by done.
  pose proof (own_not_privileged_delete postId) as Hne.
  unfold delete_choice in *. destruct (ctx_isAdmin ctx); [|destruct own].
  - split_and!; [|split|done].
    + split; [done|]. intros _. eexists. by rewrite list_elem_of_singleton.
    + intros (req & ->%list_elem_of_singleton & _ & Hurl). by destruct Hne.
    + by intros [[=] _].
  - split_and!; [split|split|done].
    + intros (req & ->%list_elem_of_singleton & _ & Hurl). by destruct Hne.
    + done.
    + done.
    + intros _. eexists. by rewrite list_elem_of_singleton.
  - split_and!; [split|split|].
    + by intros (req & []%elem_of_nil & _).
    + done.
    + by intros (req & []%elem_of_nil & _).
    + by intros [_ [=]].
    + intros _ _. by apply issued_app.
Qed.

Lemma filled_trim (field : value) :
  filled field -> exists s, trim field = Normal s /\ String.eqb s "" = false.
Proof. intros (s & Htrim & Hne). exists s. by rewrite String.eqb_neq. Qed.

(** A submitted edit leaves with exactly one request, the one picked from
    the admin flag and the [isOwnPost] parameter of the route. *)
Lemma handleSubmit_trace (ctx : auth_context) (params title content : value) (w : world) :
  filled title -> filled content ->
  CreateEditPostScreen.isEditing params = true ->
  sent (CreateEditPostScreen.handleSubmit env ctx params title content w).2 =
    update_choice env ctx w (CreateEditPostScreen.postId params) (form_data title content)
      (truthy (CreateEditPostScreen.isOwnPost params)) :: sent w.
Proof.
  intros (t & Ht & Htne)%filled_trim (c & Hc & Hcne)%filled_trim Hedit.
  unfold CreateEditPostScreen.handleSubmit, update_choice, update_request,
    updateOwn_request, update_url, updateOwn_url, updatePost, updateOwnPost,
    bind, try_catch, try_finally, lift, ret, throw, emit, modify, axios_put,
    axios_request.
  rewrite Ht, Htne, Hc, Hcne, Hedit.
  destruct (ctx_isAdmin ctx && negb (truthy (CreateEditPostScreen.isOwnPost params)));
    by destruct (settle _).
Qed.

Lemma update_choice_spec (ctx : auth_context) (w w' : world) (postId postData : value)
    (own : bool) :
  sent w' = update_choice env ctx w postId postData own :: sent w ->
  (invoked PUT (update_url env postId) w w' <-> ctx_isAdmin ctx = true /\ own = false) /\
  (invoked PUT (updateOwn_url env postId) w w' <->
     ~ (ctx_isAdmin ctx = true /\ own = false)).
Proof.
  intros Hsent.
  rewrite !(invoked_chosen w w' [] [update_choice env ctx w postId postData own]);
    [|done|by intros ? ?%elem_of_nil|done|done|by intros ? ?%elem_of_nil|done].
  pose proof (own_not_privileged_update postId) as Hne.
  assert (forall req u, (exists r, r ∈ [req] /\ method r = PUT /\ url r = u) <->
                        method req = PUT /\ url req = u) as Hone.
  { intros req u. split.
    - by intros (r & ->%list_elem_of_singleton & Hm & Hu).
    - intros [Hm Hu]. exists req. by rewrite list_elem_of_singleton. }
  rewrite !Hone. unfold update_choice.
  destruct (ctx_isAdmin ctx && negb own) eqn:Hpick.
  - apply andb_true_iff in Hpick as [Hadmin Hnot%negb_true_iff].
    split; split.
    + done.
    + done.
    + intros [_ Hurl]. cbn in Hurl. by destruct Hne.
    + intros Hno. by destruct Hno.
  - split; split.
    + intros [_ Hurl]. cbn in Hurl. by destruct Hne.
    + intros [Hadmin Hnot]. by rewrite Hadmin, Hnot in Hpick.
    + intros _ [Hadmin Hnot]. by rewrite Hadmin, Hnot in Hpick.
    + done.
Qed.

(** A form with a field that is blank, or that is no text, sends nothing. *)
Lemma handleSubmit_unfilled (ctx : auth_context) (params title content : value)
    (w : world) :
  ~ (filled title /\ filled content) ->
  sent (CreateEditPostScreen.handleSubmit env ctx params title content w).2 = sent w.
Proof.
  intros Hno. unfold CreateEditPostScreen.handleSubmit, bind, lift, emit, modify.
  destruct (trim title) as [t|e] eqn:Ht; [|done].
  destruct (String.eqb t "") eqn:Hte; [done|].
  destruct (trim content) as [c|e] eqn:Hc; [|done].
  destruct (String.eqb c "") eqn:Hce; [done|].
  destruct Hno. split; [exists t|exists c]; by rewrite <-String.eqb_neq.
Qed.

(** A filled form whose route carries no truthy [postId] creates a post. *)
Lemma handleSubmit_creates (ctx : auth_context) (params title content : value)
    (w : world) :
  filled title -> filled content ->
  CreateEditPostScreen.isEditing params = false ->
  sent (CreateEditPostScreen.handleSubmit env ctx params title content w).2 =
    create_request env w (form_data title content) (ctx_token ctx) :: sent w.
Proof.
  intros (t & Ht & Htne)%filled_trim (c & Hc & Hcne)%filled_trim Hedit.
  unfold CreateEditPostScreen.handleSubmit, create_request, createPost,
    bind, try_catch, try_finally, lift, ret, throw, emit, modify, axios_post,
    axios_request.
  rewrite Ht, Htne, Hc, Hcne, Hedit.
  by destruct (settle _).
Qed.

(** The edit button of the two screens: rendered for an admin or the
    owner, it opens the form with the id of the post and the outcome of the
    ownership check. *)
Lemma edit_opens_form (ctx : auth_context) (post id title content : value) (own : bool)
    (w w' : world) :
  own_post ctx post = Normal own ->
  get_prop post "id" = Normal id -> truthy post = true ->
  ctx_isAuthenticated ctx = true ->
  w' = (edit_from_list env ctx post title content w).2 \/
  w' = (edit_from_detail env ctx post title content w).2 ->
  let params := VObj [("postId", id); ("isOwnPost", VBool own)] in
  w' = if ctx_isAdmin ctx || own
       then (CreateEditPostScreen.handleSubmit env ctx params title content
               (with_ui (Navigate "EditPost" params) w)).2
       else w.
Proof.
  intros Hown Hid Hpost Hauth Hw'. cbn zeta.
  destruct Hw' as [-> | ->];
    unfold edit_from_list, edit_from_detail, PostsScreen.canEditPost,
      PostDetailScreen.canEditPost, PostsScreen.editButton_params,
      PostDetailScreen.editButton_params, bind, lift, emit, modify, ret;
    rewrite ?Hpost, Hauth, Hown, Hid; cbn [negb orb];
    by destruct (ctx_isAdmin ctx), own.
Qed.

Lemma edit_trace (ctx : auth_context) (post id title content : value) (own : bool)
    (w w' : world) :
  own_post ctx post = Normal own ->
  get_prop post "id" = Normal id -> truthy id = true -> truthy post = true ->
  ctx_isAuthenticated ctx = true ->
  filled title -> filled content ->
  w' = (edit_from_list env ctx post title content w).2 \/
  w' = (edit_from_detail env ctx post title content w).2 ->
  sent w' =
    ((if ctx_isAdmin ctx || own
      then [update_choice env ctx w id (form_data title content) own] else [])
     ++ sent w)%list.
Proof.
  intros Hown Hid Htruthy Hpost Hauth Htitle Hcontent Hw'.
  pose proof (handleSubmit_trace ctx (VObj [("postId", id); ("isOwnPost", VBool own)])
                title content
                (with_ui (Navigate "EditPost"
                            (VObj [("postId", id); ("isOwnPost", VBool own)])) w)
                Htitle Hcontent Htruthy) as Hsubmit.
  rewrite (edit_opens_form ctx post id title content own w w' Hown Hid Hpost Hauth Hw').
  destruct (ctx_isAdmin ctx || own); [|done]. by rewrite Hsubmit.
Qed.

(** C5, as the code has it. For an actor [ctx] and a post whose ownership
    check gives [own]:
    - the delete handlers of the list and of the detail screen invoke the
      privileged [deletePost] exactly for an admin, whoever owns the post,
      [deleteOwnPost] exactly for an owner who is not admin, and send
      nothing for an actor who is neither;
    - the form of the edit screen sends nothing unless its title and its
      content both hold more than white space; when they do and the route
      carries a truthy [postId], it invokes [updatePost] exactly for an
      admin whose route says the post is not their own, and [updateOwnPost]
      in every other case; when they do and the [postId] of the route is
      falsy, the form is in create mode and its one request is the one of
      [createPost];
    - through the edit button of the two screens, which is rendered for an
      admin or the owner only, and with a filled form: for a post with a
      truthy id [updatePost] is invoked exactly for an admin on a post of
      another user, [updateOwnPost] exactly for the owner, and nothing is
      sent for an actor who is neither; for a post with a falsy id (0, say)
      neither update is invoked, the admin or owner creates a post instead. *)
Theorem endpoint_selection (ctx : auth_context) (postId post : value) (own : bool)
    (w : world) :
  own_post ctx post = Normal own ->
  (forall w',
     w' = (PostsScreen.handleDeletePost_onPress env ctx postId post w).2 \/
     w' = (PostDetailScreen.handleDeletePost_onPress env ctx postId post w).2 ->
     (invoked DELETE (delete_url env postId) w w' <-> ctx_isAdmin ctx = true) /\
     (invoked DELETE (deleteOwn_url env postId) w w' <->
        ctx_isAdmin ctx = false /\ own = true) /\
     (ctx_isAdmin ctx = false -> own = false -> issued w w' = [])) /\
  (forall params title content w',
     w' = (CreateEditPostScreen.handleSubmit env ctx params title content w).2 ->
     (~ (filled title /\ filled content) -> issued w w' = []) /\
     (filled title -> filled content ->
      CreateEditPostScreen.isEditing params = true ->
      (invoked PUT (update_url env (CreateEditPostScreen.postId params)) w w' <->
         ctx_isAdmin ctx = true /\
         truthy (CreateEditPostScreen.isOwnPost params) = false) /\
      (invoked PUT (updateOwn_url env (CreateEditPostScreen.postId params)) w w' <->
         ~ (ctx_isAdmin ctx = true /\
            truthy (CreateEditPostScreen.isOwnPost params) = false))) /\
     (filled title -> filled content ->
      CreateEditPostScreen.isEditing params = false ->
      issued w w' =
        [create_request env w (form_data title content) (ctx_token ctx)])) /\
  (forall id title content w',
     get_prop post "id" = Normal id -> truthy post = true ->
     ctx_isAuthenticated ctx = true ->
     filled title -> filled content ->
     w' = (edit_from_list env ctx post title content w).2 \/
     w' = (edit_from_detail env ctx post title content w).2 ->
     (truthy id = true ->
      (invoked PUT (update_url env id) w w' <-> ctx_isAdmin ctx = true /\ own = false) /\
      (invoked PUT (updateOwn_url env id) w w' <-> own = true) /\
      (ctx_isAdmin ctx = false -> own = false -> issued w w' = [])) /\
     (truthy id = false ->
      issued w w' =
        if ctx_isAdmin ctx || own
        then [create_request env w (form_data title content) (ctx_token ctx)]
        else [])).
Proof.
  intros Hown. split_and!.
  - intros w' [-> | ->].
    + destruct (delete_from_list_trace ctx postId post own w Hown)
        as (rest & Hrest & Hnone & Hsent).
      destruct (delete_choice_spec ctx w _ postId own rest Hrest Hsent)
        as (Hpriv & Hown' & Hneither).
      split_and!; [done|done|]. intros Hadmin Hnot.
      rewrite Hneither by done. apply Hnone. unfold delete_choice.
      by rewrite Hadmin, Hnot.
    + pose proof (delete_from_detail_trace ctx postId post own w Hown) as Hsent.
      by apply (delete_choice_spec ctx w _ postId own []);
        [intros ? ?%elem_of_nil|].
  - intros params title content w' ->. split_and!.
    + intros Hno. apply (issued_app _ _ []). by apply handleSubmit_unfilled.
    + intros Htitle Hcontent Hedit.
      by apply (update_choice_spec ctx w _ _ (form_data title content)),
        handleSubmit_trace.
    + intros Htitle Hcontent Hedit. apply (issued_app _ _ [_]).
      by apply handleSubmit_creates.
  - intros id title content w' Hid Hpost Hauth Htitle Hcontent Hw'. split.
    + intros Htruthy.
      pose proof (edit_trace ctx post id title content own w w'
                    Hown Hid Htruthy Hpost Hauth Htitle Hcontent Hw') as Hsent.
      destruct (ctx_isAdmin ctx || own) eqn:Hshown.
      * destruct (update_choice_spec ctx w w' id (form_data title content) own Hsent)
          as [Hpriv Hown'].
        split_and!; [done| |].
        -- rewrite Hown'. destruct (ctx_isAdmin ctx), own; try done.
           ++ split; [done|]. by intros _ [_ [=]].
           ++ split; [|done]. intros Hno. by destruct Hno.
           ++ split; [done|]. by intros _ [[=] _].
        -- intros Hadmin Hnot. by rewrite Hadmin, Hnot in Hshown.
      * apply orb_false_elim in Hshown as [Hadmin ->].
        split_and!.
        -- rewrite (invoked_app w w' []) by done. rewrite Hadmin. split.
           ++ by intros (req & []%elem_of_nil & _).
           ++ by intros [[=] _].
        -- rewrite (invoked_app w w' []) by done. split; [|done].
           by intros (req & []%elem_of_nil & _).
        -- intros _ _. by apply issued_app.
    + intros Hfalsy.
      rewrite (edit_opens_form ctx post id title content own w w' Hown Hid Hpost Hauth Hw').
      destruct (ctx_isAdmin ctx || own); [|by apply (issued_app _ _ [])].
      apply (issued_app _ _ [_]).
      by rewrite (handleSubmit_creates ctx
                    (VObj [("postId", id); ("isOwnPost", VBool own)]) title content _
                    Htitle Hcontent Hfalsy).
Qed.

End WithEnv.

Import Sample.

Lemma filled_T2 : filled (VStr "T2").
Proof. exists "T2". by split. Qed.

Lemma unfilled_nbsp (content : value) : ~ (filled (VStr nbsp) /\ filled content).
Proof. intros [(s & Hs & Hne) _]. vm_compute in Hs. by injection Hs as <-. Qed.

(** [alice], who is not admin, deletes her own post from the list and
    edits it through the edit button; a form whose title is a no-break
    space sends nothing. *)
Lemma endpoint_selection_witness :
  own_post (contextValue (signed_in alice "tok-0")) post_of_alice = Normal true /\
  (invoked DELETE (deleteOwn_url env_up (VNum 7)) (signed_in alice "tok-0")
     (PostsScreen.handleDeletePost_onPress env_up
        (contextValue (signed_in alice "tok-0")) (VNum 7) post_of_alice
        (signed_in alice "tok-0")).2 <->
   ctx_isAdmin (contextValue (signed_in alice "tok-0")) = false /\ true = true) /\
  (invoked PUT (updateOwn_url env_up (VNum 7)) (signed_in alice "tok-0")
     (edit_from_list env_up (contextValue (signed_in alice "tok-0")) post_of_alice
        (VStr "T2") (VStr "T2") (signed_in alice "tok-0")).2 <->
   true = true) /\
  issued (signed_in alice "tok-0")
    (CreateEditPostScreen.handleSubmit env_up (contextValue (signed_in alice "tok-0"))
       (VObj [("postId", VNum 7); ("isOwnPost", VBool true)]) (VStr nbsp) (VStr "T2")
       (signed_in alice "tok-0")).2 = [].
Proof.
  split; [reflexivity|].
  destruct (endpoint_selection env_up (contextValue (signed_in alice "tok-0"))
              (VNum 7) post_of_alice true (signed_in alice "tok-0") eq_refl)
    as (Hdelete & Hform & Hedit).
  split_and!.
  - apply Hdelete. by left.
  - apply (Hedit (VNum 7) (VStr "T2") (VStr "T2")); try done;
      [apply filled_T2|apply filled_T2|by left].
  - apply (Hform (VObj [("postId", VNum 7); ("isOwnPost", VBool true)])
             (VStr nbsp) (VStr "T2") _ eq_refl).
    apply unfilled_nbsp.
Defined.

(** The form on its own takes the own-post address for an actor who is
    neither admin nor owner: [alice] submitting an edit of the post of
    [root] when the route carries no [isOwnPost]. *)
Lemma form_takes_own_variant_for_stranger :
  ctx_isAdmin (contextValue (signed_in alice "tok-0")) = false /\
  own_post (contextValue (signed_in alice "tok-0")) post_of_root = Normal false /\
  endpoints
    (sent (CreateEditPostScreen.handleSubmit env_up
             (contextValue (signed_in alice "tok-0")) (VObj [("postId", VNum 8)])
             (VStr "T2") (VStr "T2") (signed_in alice "tok-0")).2) =
    [(PUT, "http://localhost:3000/post/updateOwnPost/8")].
Proof. split_and!; vm_compute; reflexivity. Qed.

(** C5 as stated fails for an admin who owns the post: [root] deletes a
    post of their own from the list, and the request goes to the privileged
    address, not to the one for own posts. *)
Lemma admin_owner_deletes_through_privileged_endpoint :
  ctx_isAdmin (contextValue (signed_in root "tok-9")) = true /\
  own_post (contextValue (signed_in root "tok-9")) post_of_root = Normal true /\
  endpoints
    (sent (PostsScreen.handleDeletePost_onPress env_up
             (contextValue (signed_in root "tok-9")) (VNum 8) post_of_root
             (signed_in root "tok-9")).2) =
    [(GET, "http://localhost:3000/post/all");
     (DELETE, "http://localhost:3000/post/delete/8")] /\
  invoked DELETE (delete_url env_up (VNum 8)) (signed_in root "tok-9")
    (PostsScreen.handleDeletePost_onPress env_up
       (contextValue (signed_in root "tok-9")) (VNum 8) post_of_root
       (signed_in root "tok-9")).2 /\
  ~ invoked DELETE (deleteOwn_url env_up (VNum 8)) (signed_in root "tok-9")
      (PostsScreen.handleDeletePost_onPress env_up
         (contextValue (signed_in root "tok-9")) (VNum 8) post_of_root
         (signed_in root "tok-9")).2.
Proof.
  split_and!; [vm_compute; reflexivity..| |].
  - destruct (delete_from_list_trace env_up (contextValue (signed_in root "tok-9"))
                (VNum 8) post_of_root true (signed_in root "tok-9") eq_refl)
      as (rest & Hrest & _ & Hsent).
    by apply (delete_choice_spec env_up _ _ _ _ _ rest Hrest Hsent).
  - destruct (delete_from_list_trace env_up (contextValue (signed_in root "tok-9"))
                (VNum 8) post_of_root true (signed_in root "tok-9") eq_refl)
      as (rest & Hrest & _ & Hsent).
    intros Hown.
    by apply (delete_choice_spec env_up _ _ _ _ _ rest Hrest Hsent) in Hown as [[=] _].
Qed.

End ScreenProperties.

(** * Further properties of the session *)

Module SessionLifecycle.

Import AuthContext Spec Flow.

Ltac run :=
  unfold login, register, logout, loadStoredAuthState, getUserProfile, getAllUsers,
    bind, try_catch, try_finally,
    throw, ret, lift, axios_post, axios_get, axios_request, setError, setToken, setUser,
    setIsLoading, set_default_header, delete_default_header, modify, gets;
  cbn [fst snd user token isLoading error storage default_headers sent ui
       with_sent with_storage with_default_headers with_ui].

Section WithEnv.
Context (env : Env).

(** The token of a run of [login] that returns is a non-empty string. *)
Lemma login_returns_token (email password : value) (w w' : world) (v : value) :
  login env email password w = (Normal v, w') ->
  exists t, token w' = VStr t /\ t <> "".
Proof.
  run. unfold outgoing. cbn [default_headers].
  destruct (settle (backend env (Request POST _ _ _))) as [r|e]; [|intros; simplify_eq].
  destruct (get_prop (data r) "token") as [t|e]; [|intros; simplify_eq].
  destruct (truthy t) eqn:Htruthy; cbn [negb]; [|intros; simplify_eq].
  run. unfold outgoing. cbn [default_headers].
  destruct (settle (backend env (Request GET _ _ _))) as [p|e]; [|intros; simplify_eq].
  destruct (get_prop (data p) "data") as [u|e]; [|intros; simplify_eq].
  run. unfold AsyncStorage_setItem, JSON_stringify_value.
  destruct t as [| | | |t| |]; try by (intros; simplify_eq).
  destruct (storage_faulty env (SetItem "authToken" t)); [intros; simplify_eq|].
  destruct (JSON_stringify env u) as [s|]; cbn [from_option]; [|intros; simplify_eq].
  cbn [storage with_storage].
  destruct (storage_faulty env (SetItem "user" s)); [intros; simplify_eq|].
  intros [= <- <-]. exists t. split; [done|].
  cbn in Htruthy. by apply negb_true_iff, String.eqb_neq in Htruthy.
Qed.

(** What [logout] does on a store that accepts both removals. *)
Lemma logout_healthy (w : world) :
  storage_faulty env (RemoveItem "authToken") = false ->
  storage_faulty env (RemoveItem "user") = false ->
  logout env w =
    (Normal tt,
     World VNull VNull (isLoading w) (error w)
       (delete "user" (delete "authToken" (storage w)))
       (delete "Authorization" (default_headers w)) (sent w) (ui w)).
Proof.
  intros Htok Huser. run. unfold AsyncStorage_removeItem.
  rewrite Htok. cbn [storage with_storage]. by rewrite Huser.
Qed.

(** What the restore does when the store has no token entry. *)
Lemma restore_without_token (w : world) :
  storage w !! "authToken" = None ->
  loadStoredAuthState env w =
    (Normal tt,
     World (user w) (token w) false (error w) (storage w) (default_headers w)
       (sent w) (ui w)).
Proof.
  intros Hnone. run. unfold AsyncStorage_getItem. rewrite Hnone.
  destruct (storage_faulty env (GetItem "authToken")); [done|].
  by destruct (storage_faulty env (GetItem "user")).
Qed.

(** X1. Signing in and then out, on a store that accepts the removals,
    ends with an empty session, a store without the two entries and the
    default headers without [Authorization]; nothing else in the store or
    in the headers differs from before the sign-in. *)
Theorem login_then_logout (email password : value) (w w1 : world) (v : value) :
  login env email password w = (Normal v, w1) ->
  storage_faulty env (RemoveItem "authToken") = false ->
  storage_faulty env (RemoveItem "user") = false ->
  exists w2,
    logout env w1 = (Normal tt, w2) /\
    token w2 = VNull /\ user w2 = VNull /\ isAuthenticated w2 = false /\
    storage w2 = delete "user" (delete "authToken" (storage w)) /\
    default_headers w2 = delete "Authorization" (default_headers w).
Proof.
  intros Hlogin Htok Huser.
  destruct (SessionProperties.login_returns_inv env _ _ _ _ _ Hlogin)
    as (r & p & t & s & _ & _ & _ & _ & _ & ->).
  eexists. split; [by apply logout_healthy|]. cbn.
  split_and!; try done.
  - apply map_eq. intros k. rewrite !lookup_delete, !lookup_insert.
    by repeat case_decide.
  - apply map_eq. intros k. rewrite !lookup_delete, !lookup_insert.
    by repeat case_decide.
Qed.

(** X2. A session established by [login] survives a restart: when the
    engine's [JSON] gives the user back from the text written for it and
    the store can be read, the restore of the next process ends with the
    same token, the same user and the same bearer header. *)
Theorem session_survives_restart (email password : value) (w w1 : world) (v : value) :
  login env email password w = (Normal v, w1) ->
  round_trips env v ->
  storage_faulty env (GetItem "authToken") = false ->
  storage_faulty env (GetItem "user") = false ->
  exists w2,
    loadStoredAuthState env (restart w1) = (Normal tt, w2) /\
    token w2 = token w1 /\ user w2 = user w1 /\
    default_headers w2 !! "Authorization" = default_headers w1 !! "Authorization" /\
    isLoading w2 = false.
Proof.
  intros Hlogin Hjson Hf1 Hf2.
  destruct (login_returns_token _ _ _ _ _ Hlogin) as (t' & Htoken & Hne).
  destruct (SessionProperties.login_returns_inv env _ _ _ _ _ Hlogin)
    as (r & p & t & s & _ & _ & _ & _ & Hs & ->).
  cbn in Htoken. injection Htoken as ->.
  destruct (Hjson s Hs) as [Hsne Hparse].
  run. unfold AsyncStorage_getItem, restart. rewrite Hf1, Hf2. cbn [storage].
  rewrite (lookup_insert_ne _ "user" "authToken") by done.
  rewrite !lookup_insert_eq.
  cbn [from_option truthy to_string].
  apply String.eqb_neq in Hne, Hsne. rewrite Hne, Hsne. cbn [negb andb].
  run. rewrite Hparse. eexists. split; [reflexivity|]. cbn.
  by rewrite !lookup_insert_eq.
Qed.

(** X3. A sign-out survives a restart: after a [logout] on a store that
    accepts the removals, the restore of the next process leaves the session
    empty and the default headers without [Authorization], whatever the
    store held before and whether or not it can be read. *)
Theorem logout_survives_restart (w : world) :
  storage_faulty env (RemoveItem "authToken") = false ->
  storage_faulty env (RemoveItem "user") = false ->
  exists w2,
    loadStoredAuthState env (restart (logout env w).2) = (Normal tt, w2) /\
    token w2 = VNull /\ user w2 = VNull /\ isAuthenticated w2 = false /\
    default_headers w2 !! "Authorization" = None /\
    isLoading w2 = false.
Proof.
  intros Htok Huser. rewrite (logout_healthy w Htok Huser). cbn [snd].
  rewrite restore_without_token.
  - eexists. split; [reflexivity|]. by cbn.
  - unfold restart. cbn [storage].
    by rewrite lookup_delete_ne, lookup_delete_eq.
Qed.

(** X4. The four operations of the context that talk to the backend
    report through the error cell in one way: it is empty after a call that
    returns, and after a call that throws it holds the message of the
    backend's answer when there is a truthy one and the fallback text of the
    operation otherwise, whatever the cell held before. *)
Theorem error_cell_policy (w : world) :
  (forall name email password,
     error (register env name email password w).2 =
       reported "Registration failed" (register env name email password w).1) /\
  (forall email password,
     error (login env email password w).2 =
       reported "Login failed" (login env email password w).1) /\
  error (getUserProfile env w).2 =
    reported "Failed to get profile" (getUserProfile env w).1 /\
  error (getAllUsers env w).2 =
    reported "Failed to get users" (getAllUsers env w).1.
Proof.
  split_and!.
  - intros name email password. run. by destruct (settle _).
  - intros email password. run.
    unfold AsyncStorage_setItem, JSON_stringify_value.
    destruct (settle _) as [r|e]; [|done].
    destruct (get_prop (data r) "token") as [t|e]; [|done].
    destruct (truthy t); cbn [negb]; [|done]. run.
    destruct (settle _) as [p|e]; [|done].
    destruct (get_prop (data p) "data") as [u|e]; [|done]. run.
    destruct t; try done.
    destruct (storage_faulty env (SetItem "authToken" _)); [done|].
    destruct (JSON_stringify env u); cbn [from_option]; [|done].
    by destruct (storage_faulty env (SetItem "user" _)).
  - run. destruct (settle _) as [r|e]; [|done]. cbn beta iota.
    destruct (truthy (data r)) eqn:Hbody.
    + destruct (get_prop (data r) "data") as [inner|e]; [|done].
      by destruct (truthy inner).
    + by rewrite Hbody.
  - run. destruct (settle _) as [r|e]; [|done]. cbn beta iota.
    by destruct (get_prop (data r) "data").
Qed.

(** How [getUserProfile] ends, for every answer. *)
Lemma getUserProfile_run (w : world) :
  getUserProfile env w =
    (match settle (backend env (own_profile_request env w)) with
     | Normal r => Normal (unwrap (data r))
     | Throw e => Throw e
     end,
     World (user w) (token w) (isLoading w)
       (reported "Failed to get profile"
          (settle (backend env (own_profile_request env w))))
       (storage w) (default_headers w)
       (own_profile_request env w :: sent w) (ui w)).
Proof.
  run. unfold own_profile_request, outgoing. cbn [default_headers token].
  destruct (settle _) as [r|e]; [|done]. cbn beta iota. unfold unwrap.
  destruct (truthy (data r)) eqn:Hbody.
  - rewrite (PostServiceProperties.get_prop_defined (data r))
      by by apply PostServiceProperties.truthy_not_nullish.
    by destruct (truthy (get_prop_opt (data r) "data")).
  - rewrite Hbody.
    assert (truthy (get_prop_opt (data r) "data") = false) as ->
      by by destruct (data r) as [| |[]|[]|[]| |].
    done.
Qed.

(** X5. [getUserProfile] sends one request, authorized with the token of
    the session whatever the default header says, and returns the [data]
    member of the body when there is a truthy one and the body otherwise (a
    [null] body comes back as [null]) or rethrows the rejection. It writes
    neither the token nor the user cell nor the store nor the default
    headers: the user of the session is not refreshed by it. *)
Theorem getUserProfile_reads_only (w : world) :
  exists c w',
    getUserProfile env w = (c, w') /\
    same_session w w' /\
    sent w' = own_profile_request env w :: sent w /\
    headers (own_profile_request env w) !! "Authorization" = Some (bearer (token w)) /\
    c = match settle (backend env (own_profile_request env w)) with
        | Normal r => Normal (unwrap (data r))
        | Throw e => Throw e
        end.
Proof.
  do 2 eexists. split; [apply getUserProfile_run|].
  split_and!; try done.
  unfold own_profile_request, outgoing. cbn [headers].
  apply lookup_union_Some_l, lookup_singleton_eq.
Qed.

End WithEnv.

Import Sample Scenario.

Lemma login_then_logout_witness :
  login env_up email password fresh =
    (Normal alice, (login env_up email password fresh).2) /\
  storage_faulty env_up (RemoveItem "authToken") = false /\
  storage_faulty env_up (RemoveItem "user") = false /\
  exists w2,
    logout env_up (login env_up email password fresh).2 = (Normal tt, w2) /\
    token w2 = VNull /\ user w2 = VNull /\ isAuthenticated w2 = false /\
    storage w2 = delete "user" (delete "authToken" (storage fresh)) /\
    default_headers w2 = delete "Authorization" (default_headers fresh).
Proof.
  split_and!; [vm_compute; reflexivity..|].
  apply (login_then_logout env_up email password fresh _ alice);
    vm_compute; reflexivity.
Defined.

Lemma alice_round_trips : round_trips env_up alice.
Proof.
  intros s Hs. vm_compute in Hs. injection Hs as <-.
  split; [discriminate|vm_compute; reflexivity].
Defined.

Lemma session_survives_restart_witness :
  login env_up email password fresh =
    (Normal alice, (login env_up email password fresh).2) /\
  round_trips env_up alice /\
  storage_faulty env_up (GetItem "authToken") = false /\
  storage_faulty env_up (GetItem "user") = false /\
  exists w2,
    loadStoredAuthState env_up (restart (login env_up email password fresh).2) =
      (Normal tt, w2) /\
    token w2 = token (login env_up email password fresh).2 /\
    user w2 = user (login env_up email password fresh).2 /\
    default_headers w2 !! "Authorization" =
      default_headers (login env_up email password fresh).2 !! "Authorization" /\
    isLoading w2 = false.
Proof.
  split_and!; [vm_compute; reflexivity|apply alice_round_trips|reflexivity..|].
  apply (session_survives_restart env_up email password fresh _ alice);
    [vm_compute; reflexivity|apply alice_round_trips|reflexivity..].
Defined.

Lemma logout_survives_restart_witness :
  storage_faulty env_up (RemoveItem "authToken") = false /\
  storage_faulty env_up (RemoveItem "user") = false /\
  exists w2,
    loadStoredAuthState env_up (restart (logout env_up alice_world).2) = (Normal tt, w2) /\
    token w2 = VNull /\ user w2 = VNull /\ isAuthenticated w2 = false /\
    default_headers w2 !! "Authorization" = None /\
    isLoading w2 = false.
Proof.
  split_and!; [reflexivity..|].
  apply (logout_survives_restart env_up alice_world); reflexivity.
Defined.

End SessionLifecycle.

(** * Further properties of the post client *)

Module ClientProperties.

Import AuthContext PostService Spec Flow.

Lemma unwrap_defined (body : value) : nullish body = false -> nullish (unwrap body) = false.
Proof.
  intros Hbody. unfold unwrap.
  destruct (truthy (get_prop_opt body "data")) eqn:Hinner; [|done].
  by apply PostServiceProperties.truthy_not_nullish.
Qed.

Section WithEnv.
Context (env : Env).

(** How the two readers end, for every answer. *)
Lemma getAllPosts_run (w : world) :
  getAllPosts env w =
    (match settle (backend env (all_posts_request env w)) with
     | Normal r => Normal (unwrap (data r))
     | Throw e => Throw e
     end,
     with_sent (all_posts_request env w) w).
Proof.
  destruct (settle (backend env (all_posts_request env w))) as [r|e] eqn:Hres.
  - by apply PostServiceProperties.getAllPosts_resolved.
  - unfold getAllPosts, bind, try_catch, throw, axios_get, axios_request.
    unfold all_posts_request in Hres. by rewrite Hres.
Qed.

Lemma getPostById_run (postId : value) (w : world) :
  exists c,
    getPostById env postId w = (c, with_sent (post_request env w postId) w) /\
    match settle (backend env (post_request env w postId)) with
    | Normal r =>
        if nullish (data r) then exists msg, c = Throw (TypeError msg)
        else c = Normal (unwrap (data r))
    | Throw e => c = Throw e
    end.
Proof.
  destruct (settle (backend env (post_request env w postId))) as [r|e] eqn:Hres.
  - destruct (nullish (data r)) eqn:Hbody.
    + unfold getPostById, bind, try_catch, throw, ret, lift, axios_get, axios_request.
      unfold post_request in Hres. rewrite Hres.
      destruct (data r); try done; cbn; eauto.
    + eexists. split; [by apply PostServiceProperties.getPostById_resolved|done].
  - eexists. split; [by apply PostServiceProperties.getPostById_rejected|done].
Qed.

(** X6. A body that is [null] or absent under a 2xx status divides the two
    readers: [getAllPosts] hands it back as it is, [getPostById] throws a
    [TypeError]; so what [getPostById] returns is never [null] or
    [undefined]. *)
Theorem empty_body_divides_readers (postId : value) (w : world) :
  (forall r,
     settle (backend env (all_posts_request env w)) = Normal r ->
     nullish (data r) = true ->
     (getAllPosts env w).1 = Normal (data r)) /\
  (forall r,
     settle (backend env (post_request env w postId)) = Normal r ->
     nullish (data r) = true ->
     exists msg, (getPostById env postId w).1 = Throw (TypeError msg)) /\
  (forall v w', getPostById env postId w = (Normal v, w') -> nullish v = false).
Proof.
  split_and!.
  - intros r Hres Hbody. rewrite getAllPosts_run, Hres. cbn.
    by destruct (data r).
  - intros r Hres Hbody. destruct (getPostById_run postId w) as (c & -> & Hc).
    rewrite Hres, Hbody in Hc. destruct Hc as (msg & ->). by exists msg.
  - intros v w' Hrun. destruct (getPostById_run postId w) as (c & Hrun' & Hc).
    rewrite Hrun in Hrun'. injection Hrun' as <- _.
    destruct (settle _) as [r|e]; [|done].
    destruct (nullish (data r)) eqn:Hbody.
    + by destruct Hc.
    + injection Hc as ->. by apply unwrap_defined.
Qed.

(** The headers of a mutation name the token of the caller. *)
Lemma json_headers_token (w : world) (tok : value) :
  (json_headers tok ∪ default_headers w) !! "Authorization" = Some (bearer tok).
Proof.
  apply lookup_union_Some_l. unfold json_headers.
  by rewrite lookup_insert_eq.
Qed.

Lemma auth_headers_token (w : world) (tok : value) :
  (auth_headers tok ∪ default_headers w) !! "Authorization" = Some (bearer tok).
Proof. apply lookup_union_Some_l. unfold auth_headers. apply lookup_singleton_eq. Qed.

(** X7. Each of the five mutations sends exactly one request, with its own
    method and address, and changes nothing else; it hands back the body of
    a 2xx answer and rethrows a rejection as it is. The [Authorization]
    header of the request is the bearer of the token the caller passed,
    whatever the default header of the session is, and also when that token
    is [null] or [undefined] (the header is never left out). *)
Theorem mutations_carry_caller_token (w : world) (postId postData tok : value) :
  let create := outgoing w POST (API_URL env ++ "/post/new") postData (json_headers tok) in
  let update := outgoing w PUT (update_url env postId) postData (json_headers tok) in
  let updateOwn := outgoing w PUT (updateOwn_url env postId) postData (json_headers tok) in
  let delete := outgoing w DELETE (delete_url env postId) VUndefined (auth_headers tok) in
  let deleteOwn := outgoing w DELETE (deleteOwn_url env postId) VUndefined (auth_headers tok) in
  createPost env postData tok w =
    (payload (settle (backend env create)), with_sent create w) /\
  updatePost env postId postData tok w =
    (payload (settle (backend env update)), with_sent update w) /\
  updateOwnPost env postId postData tok w =
    (payload (settle (backend env updateOwn)), with_sent updateOwn w) /\
  deletePost env postId tok w =
    (payload (settle (backend env delete)), with_sent delete w) /\
  deleteOwnPost env postId tok w =
    (payload (settle (backend env deleteOwn)), with_sent deleteOwn w) /\
  Forall (fun req => headers req !! "Authorization" = Some (bearer tok))
    [create; update; updateOwn; delete; deleteOwn].
Proof.
  cbn zeta.
  unfold createPost, updatePost, updateOwnPost, deletePost, deleteOwnPost,
    update_url, updateOwn_url, delete_url, deleteOwn_url,
    bind, try_catch, throw, ret, axios_post, axios_put, axios_delete, axios_request.
  split_and!; try by destruct (settle _).
  repeat constructor; unfold outgoing; cbn [headers];
    auto using json_headers_token, auth_headers_token.
Qed.

(** X8. A read is anonymous only while nobody is signed in: the request of
    [getAllPosts] and of [getPostById] carries exactly the default headers
    of the session and the call changes nothing but the trace, so after a
    [login] that returns it carries the bearer of the session token, and
    after a [logout] on a store that accepts the removals it carries no
    [Authorization]. *)
Theorem reads_carry_session_header (w : world) (postId : value) :
  (getAllPosts env w).2 = with_sent (all_posts_request env w) w /\
  (getPostById env postId w).2 = with_sent (post_request env w postId) w /\
  headers (all_posts_request env w) = default_headers w /\
  headers (post_request env w postId) = default_headers w /\
  (forall email password v w0,
     login env email password w0 = (Normal v, w) ->
     default_headers w !! "Authorization" = Some (bearer (token w))) /\
  (forall w0,
     storage_faulty env (RemoveItem "authToken") = false ->
     storage_faulty env (RemoveItem "user") = false ->
     w = (logout env w0).2 ->
     default_headers w !! "Authorization" = None).
Proof.
  split_and!.
  - by rewrite getAllPosts_run.
  - by destruct (getPostById_run postId w) as (c & -> & _).
  - unfold all_posts_request, outgoing. cbn [headers]. by rewrite (left_id_L ∅ (∪)).
  - unfold post_request, outgoing. cbn [headers]. by rewrite (left_id_L ∅ (∪)).
  - intros email password v w0 Hlogin.
    destruct (SessionProperties.login_returns_inv env _ _ _ _ _ Hlogin)
      as (r & p & t & s & _ & _ & _ & _ & _ & ->).
    cbn. by rewrite lookup_insert_eq.
  - intros w0 Htok Huser ->. rewrite (SessionLifecycle.logout_healthy env w0 Htok Huser).
    cbn. by rewrite lookup_delete_eq.
Qed.

End WithEnv.

Import Sample Scenario.

Lemma empty_body_divides_readers_witness :
  settle (backend env_null_posts (all_posts_request env_null_posts fresh)) =
    Normal (HttpResponse 200 VNull) /\
  nullish (data (HttpResponse 200 VNull)) = true /\
  (getAllPosts env_null_posts fresh).1 = Normal VNull /\
  getPostById env_up (VNum 7) fresh =
    (Normal post_of_alice, (getPostById env_up (VNum 7) fresh).2) /\
  nullish post_of_alice = false.
Proof.
  destruct (empty_body_divides_readers env_null_posts (VNum 7) fresh) as (Hall & _ & _).
  destruct (empty_body_divides_readers env_up (VNum 7) fresh) as (_ & _ & Hpost).
  assert (getPostById env_up (VNum 7) fresh =
            (Normal post_of_alice, (getPostById env_up (VNum 7) fresh).2)) as Hrun
    by (vm_compute; reflexivity).
  split_and!; [vm_compute; reflexivity|reflexivity| |exact Hrun|].
  - apply (Hall (HttpResponse 200 VNull)); [vm_compute; reflexivity|reflexivity].
  - exact (Hpost _ _ Hrun).
Defined.

Lemma reads_carry_session_header_witness :
  login env_up email password fresh =
    (Normal alice, (login env_up email password fresh).2) /\
  default_headers (login env_up email password fresh).2 !! "Authorization" =
    Some (bearer (token (login env_up email password fresh).2)) /\
  headers (all_posts_request env_up (login env_up email password fresh).2) =
    default_headers (login env_up email password fresh).2.
Proof.
  destruct (reads_carry_session_header env_up (login env_up email password fresh).2
              (VNum 7)) as (_ & _ & Hheaders & _ & Hlogin & _).
  assert (login env_up email password fresh =
            (Normal alice, (login env_up email password fresh).2)) as Hrun
    by (vm_compute; reflexivity).
  split_and!; [exact Hrun| |exact Hheaders].
  exact (Hlogin email password alice fresh Hrun).
Defined.

End ClientProperties.

(** * Further properties of the screens *)

Module ScreenFlows.

Import AuthContext PostService Screen Spec Flow.

Section WithEnv.
Context (env : Env).

(** How the loader of the list ends, for every answer: the part that
    follows the request, and the whole. *)
Lemma fetchPosts_resume_run (w : world) :
  PostsScreen.fetchPosts_resume env w =
    (Normal tt,
     let w1 := with_sent (all_posts_request env w) w in
     with_ui (SetState "isLoading" (VBool false))
       match settle (backend env (all_posts_request env w)) with
       | Normal r =>
           with_ui (SetState "error" VNull)
             (with_ui (SetState "posts" (unwrap (data r))) w1)
       | Throw _ =>
           with_ui (SetState "error" (VStr "Failed to load posts. Please try again.")) w1
       end).
Proof.
  unfold PostsScreen.fetchPosts_resume, bind, try_catch, try_finally, emit, modify.
  rewrite ClientProperties.getAllPosts_run.
  by destruct (settle _).
Qed.

Lemma fetchPosts_run (w : world) :
  PostsScreen.fetchPosts env w =
    (Normal tt,
     let w1 := with_sent (all_posts_request env w)
                 (with_ui (SetState "isLoading" (VBool true)) w) in
     with_ui (SetState "isLoading" (VBool false))
       match settle (backend env (all_posts_request env w)) with
       | Normal r =>
           with_ui (SetState "error" VNull)
             (with_ui (SetState "posts" (unwrap (data r))) w1)
       | Throw _ =>
           with_ui (SetState "error" (VStr "Failed to load posts. Please try again.")) w1
       end).
Proof.
  unfold PostsScreen.fetchPosts, PostsScreen.fetchPosts_begin, bind, emit, modify.
  by rewrite fetchPosts_resume_run.
Qed.

(** X9. Loading the list never throws and touches nothing of the session.
    Afterwards the screen is no longer loading and shows: the error view
    when the request was rejected (the posts it held are kept); the
    placeholder for an empty list and the list for a non-empty one, bare or
    in a [data] envelope; and its rendering throws a [TypeError] when the
    2xx answer had a [null] body, which [getAllPosts] hands through. *)
Theorem list_screen_after_fetch (w : world) :
  (PostsScreen.fetchPosts env w).1 = Normal tt /\
  same_session w (PostsScreen.fetchPosts env w).2 /\
  (forall e,
     settle (backend env (all_posts_request env w)) = Throw e ->
     list_shown (ui (PostsScreen.fetchPosts env w).2) =
       Normal (ErrorView (VStr "Failed to load posts. Please try again.")) /\
     state_of "posts" (VArr []) (ui (PostsScreen.fetchPosts env w).2) =
       state_of "posts" (VArr []) (ui w)) /\
  (forall r posts,
     settle (backend env (all_posts_request env w)) = Normal r ->
     unwrap (data r) = VArr posts ->
     list_shown (ui (PostsScreen.fetchPosts env w).2) =
       Normal (match posts with [] => EmptyView | _ => ListView (VArr posts) end)) /\
  (forall r,
     settle (backend env (all_posts_request env w)) = Normal r ->
     nullish (data r) = true ->
     exists msg,
       list_shown (ui (PostsScreen.fetchPosts env w).2) = Throw (TypeError msg)).
Proof.
  rewrite fetchPosts_run. cbn [fst snd]. split_and!.
  - done.
  - by destruct (settle _).
  - intros e ->. by cbn.
  - intros r posts -> Hposts. unfold list_shown. cbn. rewrite Hposts.
    by destruct posts.
  - intros r -> Hbody. unfold list_shown. cbn.
    assert (unwrap (data r) = data r) as -> by by destruct (data r).
    destruct (data r); try done; cbn; eauto.
Qed.



(** X11. The effect that loads the edit form does nothing, and sends
    nothing, when the route carries no truthy [postId]. When it does, the
    effect never throws, leaves the session alone and ends the fetching
    phase: the form receives the [title] and the [content] of the post that
    came back, and when the request fails, or is answered without a body,
    the fields are left untouched and the failure is shown in a dialog. *)
Theorem edit_form_load (params : value) (w : world) :
  (CreateEditPostScreen.isEditing params = false ->
   CreateEditPostScreen.loadEffect env params w = (Normal tt, w)) /\
  (CreateEditPostScreen.isEditing params = true ->
   let w' := (CreateEditPostScreen.loadEffect env params w).2 in
   let req := post_request env w (CreateEditPostScreen.postId params) in
   let failed := [SetState "isFetchingPost" (VBool false);
                  Alert "Error" "Could not load post data";
                  SetState "error" (VStr "Failed to load post details")] in
   (CreateEditPostScreen.loadEffect env params w).1 = Normal tt /\
   same_session w w' /\
   sent w' = req :: sent w /\
   state_of "isFetchingPost" (VBool true) (ui w') = VBool false /\
   (forall r,
      settle (backend env req) = Normal r -> nullish (data r) = false ->
      ui w' = ([SetState "isFetchingPost" (VBool false);
                SetState "content" (get_prop_opt (unwrap (data r)) "content");
                SetState "title" (get_prop_opt (unwrap (data r)) "title")]
               ++ ui w)%list) /\
   (forall r,
      settle (backend env req) = Normal r -> nullish (data r) = true ->
      ui w' = (failed ++ ui w)%list) /\
   (forall e, settle (backend env req) = Throw e -> ui w' = (failed ++ ui w)%list)).
Proof.
  unfold CreateEditPostScreen.loadEffect, CreateEditPostScreen.isEditing.
  split.
  - by intros ->.
  - intros Hedit. rewrite Hedit. cbn [andb].
    change (truthy (CreateEditPostScreen.postId params))
      with (truthy (get_prop_opt params "postId")).
    rewrite Hedit. cbn zeta.
    unfold CreateEditPostScreen.fetchPostDetails, bind, try_catch, try_finally, lift,
      emit, modify.
    destruct (ClientProperties.getPostById_run env (CreateEditPostScreen.postId params) w)
      as (c & -> & Hc).
    destruct (settle _) as [r|e].
    + destruct (nullish (data r)) eqn:Hbody.
      * destruct Hc as (msg & ->). cbn. split_and!; try done.
        all: intros r' [= <-]; first [done | by rewrite Hbody].
      * subst c.
        rewrite !(PostServiceProperties.get_prop_defined (unwrap (data r)))
          by by apply ClientProperties.unwrap_defined.
        cbn. split_and!; try done.
        all: intros r' [= <-]; first [done | by rewrite Hbody].
    + subst c. cbn. by split_and!.
Qed.

Lemma blank_trim (field : value) :
  blank field -> trim field = Normal "".
Proof. done. Qed.

(** X12. The form refuses a blank field before anything else happens: with
    a title that is empty or white space only (any white space that [trim]
    strips, a no-break space included), whatever the content, and with a
    filled title and such a content, submitting shows the one dialog that
    names the field, sends no request and touches neither the loading flag
    nor the session. *)
Theorem submit_refuses_blank_fields (ctx : auth_context) (params title content : value)
    (w : world) :
  (blank title ->
   CreateEditPostScreen.handleSubmit env ctx params title content w =
     (Normal tt, with_ui (Alert "Error" "Please enter a title") w)) /\
  (filled title -> blank content ->
   CreateEditPostScreen.handleSubmit env ctx params title content w =
     (Normal tt, with_ui (Alert "Error" "Please enter some content") w)).
Proof.
  unfold CreateEditPostScreen.handleSubmit, bind, lift, emit, modify. split.
  - intros Htitle. by rewrite (blank_trim _ Htitle).
  - intros (t & Ht & Hne)%ScreenProperties.filled_trim Hcontent.
    by rewrite Ht, Hne, (blank_trim _ Hcontent).
Qed.


(** How the delete handler of the list ends once the ownership check has
    given [own]. *)
Lemma delete_from_list_run (ctx : auth_context) (postId post : value) (own : bool)
    (w : world) :
  own_post ctx post = Normal own ->
  PostsScreen.handleDeletePost_onPress env ctx postId post w =
    (Normal tt,
     match delete_choice env ctx w postId own with
     | [] => with_ui (Alert "Error" "You can only delete your own posts") w
     | req :: _ =>
         match settle (backend env req) with
         | Normal _ =>
             (PostsScreen.fetchPosts_resume env
                (with_ui (Alert "Success" "Post deleted successfully")
                   (with_ui (SetState "isLoading" (VBool true)) (with_sent req w)))).2
         | Throw e => with_ui (Alert "Error" (delete_failure e)) (with_sent req w)
         end
     end).
Proof.
  intros Hown.
  unfold PostsScreen.handleDeletePost_onPress, PostsScreen.fetchPosts_begin,
    delete_choice, delete_request,
    deleteOwn_request, delete_url, deleteOwn_url, deletePost, deleteOwnPost,
    bind, try_catch, lift, ret, throw, emit, modify, axios_delete, axios_request.
  rewrite Hown. destruct (ctx_isAdmin ctx); [|destruct own]; [| |done].
  all: destruct (settle _) as [r|e]; [|done].
  all: by rewrite fetchPosts_resume_run.
Qed.

Lemma delete_from_detail_run (ctx : auth_context) (postId post : value) (own : bool)
    (w : world) :
  own_post ctx post = Normal own ->
  PostDetailScreen.handleDeletePost_onPress env ctx postId post w =
    (Normal tt,
     match delete_choice env ctx w postId own with
     | [] => with_ui (Alert "Error" "You can only delete your own posts") w
     | req :: _ =>
         match settle (backend env req) with
         | Normal _ =>
             with_ui GoBack
               (with_ui (Alert "Success" "Post deleted successfully") (with_sent req w))
         | Throw e => with_ui (Alert "Error" (delete_failure e)) (with_sent req w)
         end
     end).
Proof.
  intros Hown.
  unfold PostDetailScreen.handleDeletePost_onPress, delete_choice, delete_request,
    deleteOwn_request, delete_url, deleteOwn_url, deletePost, deleteOwnPost,
    bind, try_catch, lift, ret, throw, emit, modify, axios_delete, axios_request.
  rewrite Hown. destruct (ctx_isAdmin ctx); [|destruct own]; [| |done].
  all: by destruct (settle _) as [r|e].
Qed.

(** X14. The delete handlers of the list and of the detail screen never
    throw. A failing ownership check (no user, no post) and a rejected
    delete request both end in one error dialog that carries the message of
    the backend or of the error: in the first case nothing was sent, in the
    second the list is not reloaded and the detail screen is not left. After
    a 2xx answer the detail screen shows the success dialog and goes back;
    the list screen raises its loading flag, shows the success dialog and
    only then receives the outcome of the reload, the new list or the load
    error, which one further request has fetched; the session is left as it
    was. *)
Theorem delete_handler_outcome (ctx : auth_context) (postId post : value) (w : world) :
  (forall e,
     own_post ctx post = Throw e ->
     PostsScreen.handleDeletePost_onPress env ctx postId post w =
       (Normal tt, with_ui (Alert "Error" (delete_failure e)) w) /\
     PostDetailScreen.handleDeletePost_onPress env ctx postId post w =
       (Normal tt, with_ui (Alert "Error" (delete_failure e)) w)) /\
  (forall own req e,
     own_post ctx post = Normal own ->
     delete_choice env ctx w postId own = [req] ->
     settle (backend env req) = Throw e ->
     PostsScreen.handleDeletePost_onPress env ctx postId post w =
       (Normal tt, with_ui (Alert "Error" (delete_failure e)) (with_sent req w)) /\
     PostDetailScreen.handleDeletePost_onPress env ctx postId post w =
       (Normal tt, with_ui (Alert "Error" (delete_failure e)) (with_sent req w))) /\
  (forall own req r,
     own_post ctx post = Normal own ->
     delete_choice env ctx w postId own = [req] ->
     settle (backend env req) = Normal r ->
     (exists w',
        PostsScreen.handleDeletePost_onPress env ctx postId post w = (Normal tt, w') /\
        same_session w w' /\
        sent w' = all_posts_request env w :: req :: sent w /\
        ui w' =
          (list_reloaded (settle (backend env (all_posts_request env w))) ++
           [Alert "Success" "Post deleted successfully";
            SetState "isLoading" (VBool true)] ++ ui w)%list) /\
     PostDetailScreen.handleDeletePost_onPress env ctx postId post w =
       (Normal tt,
        with_ui GoBack
          (with_ui (Alert "Success" "Post deleted successfully") (with_sent req w)))).
Proof.
  split_and!.
  - intros e Hown.
    unfold PostsScreen.handleDeletePost_onPress, PostDetailScreen.handleDeletePost_onPress,
      bind, try_catch, lift, emit, modify, ret.
    by rewrite Hown.
  - intros own req e Hown Hchoice Hres.
    rewrite (delete_from_list_run _ _ _ _ _ Hown), (delete_from_detail_run _ _ _ _ _ Hown).
    by rewrite Hchoice, Hres.
  - intros own req r Hown Hchoice Hres.
    rewrite (delete_from_list_run _ _ _ _ _ Hown), (delete_from_detail_run _ _ _ _ _ Hown).
    rewrite Hchoice, Hres. split; [|done].
    eexists. split; [reflexivity|].
    rewrite fetchPosts_resume_run. cbn [snd].
    change (all_posts_request env (with_ui _ (with_ui _ (with_sent req w))))
      with (all_posts_request env w).
    by destruct (settle (backend env (all_posts_request env w))).
Qed.

Lemma own_post_defined (ctx : auth_context) (post : value) :
  nullish post = false -> nullish (ctx_user ctx) = false ->
  own_post ctx post =
    Normal (strict_eq (get_prop_opt post "userId") (get_prop_opt (ctx_user ctx) "id")).
Proof.
  intros Hpost Huser. unfold own_post.
  by rewrite !PostServiceProperties.get_prop_defined.
Qed.

(** X15. The buttons and the delete handlers agree. For a signed-in actor
    with a user record and a post record, the ownership check gives an
    answer, and the edit and the delete button of the list and of the detail
    screen are rendered under one and the same condition, admin or owner; a
    press on a rendered delete button always
    sends a delete request, so the refusal dialog of the handlers cannot be
    reached through the buttons; it is all the handler does, sending
    nothing, for an actor who is neither. Signed out, no button is
    rendered, and deciding so reads neither the post nor the user. *)
Theorem buttons_match_delete_handlers (ctx : auth_context) (postId post : value)
    (w : world) :
  (ctx_isAuthenticated ctx = false ->
   PostsScreen.canEditPost ctx post = Normal false /\
   PostsScreen.canDeletePost ctx post = Normal false /\
   PostDetailScreen.canEditPost ctx post = Normal false /\
   PostDetailScreen.canDeletePost ctx post = Normal false) /\
  (ctx_isAuthenticated ctx = true ->
   truthy post = true -> nullish (ctx_user ctx) = false ->
   exists own : bool,
     own_post ctx post = Normal own /\
     let shown := ctx_isAdmin ctx || own in
     PostsScreen.canEditPost ctx post = Normal shown /\
     PostsScreen.canDeletePost ctx post = Normal shown /\
     PostDetailScreen.canEditPost ctx post = Normal shown /\
     PostDetailScreen.canDeletePost ctx post = Normal shown /\
     forall w',
       w' = (PostsScreen.handleDeletePost_onPress env ctx postId post w).2 \/
       w' = (PostDetailScreen.handleDeletePost_onPress env ctx postId post w).2 ->
       if shown then
         invoked DELETE (delete_url env postId) w w' \/
         invoked DELETE (deleteOwn_url env postId) w w'
       else
         w' = with_ui (Alert "Error" "You can only delete your own posts") w).
Proof.
  split.
  - intros Hauth.
    unfold PostsScreen.canEditPost, PostsScreen.canDeletePost,
      PostDetailScreen.canEditPost, PostDetailScreen.canDeletePost.
    rewrite Hauth. cbn. by rewrite orb_true_r.
  - intros Hauth Hpost Huser.
    pose proof (own_post_defined ctx post
                  (PostServiceProperties.truthy_not_nullish _ Hpost) Huser) as Hown.
    set (own := strict_eq _ _) in Hown.
    exists own. split; [done|]. cbn zeta.
    unfold PostsScreen.canEditPost, PostsScreen.canDeletePost,
      PostDetailScreen.canEditPost, PostDetailScreen.canDeletePost.
    rewrite Hauth, Hpost, Hown. cbn [negb orb].
    split_and!; try by destruct (ctx_isAdmin ctx).
    intros w' Hw'.
    destruct (ScreenProperties.delete_from_list_trace env ctx postId post own w Hown)
      as (rest & Hrest & Hnone & Hlist).
    pose proof (ScreenProperties.delete_from_detail_trace env ctx postId post own w Hown)
      as Hdetail.
    assert (exists rest',
              (forall req, req ∈ rest' -> method req = GET) /\
              sent w' = (rest' ++ delete_choice env ctx w postId own ++ sent w)%list)
      as (rest' & Hrest' & Hsent).
    { destruct Hw' as [-> | ->]; [by exists rest|exists []].
      split; [by intros ? ?%elem_of_nil|done]. }
    destruct (ScreenProperties.delete_choice_spec env ctx w w' postId own rest' Hrest' Hsent)
      as (Hpriv & Hown' & _).
    destruct (ctx_isAdmin ctx) eqn:Hadmin; cbn [orb].
    + left. by apply Hpriv.
    + destruct own eqn:Hownb.
      * right. by apply Hown'.
      * destruct Hw' as [-> | ->].
        -- rewrite (delete_from_list_run _ _ _ _ _ Hown). unfold delete_choice.
           by rewrite Hadmin.
        -- rewrite (delete_from_detail_run _ _ _ _ _ Hown). unfold delete_choice.
           by rewrite Hadmin.
Qed.


(** X17. The Login Now button of the success dialog never throws. When
    [login] returns it does nothing more; when [login] throws it shows the
    failure dialog and navigates to the route [Login]. After a sign-in that
    kept the token although the profile request was rejected, the session
    counts as authenticated all the same: the root then renders the main
    stack, which has no [Login] screen, and not the sign-in stack the
    handler asked for. *)
Theorem login_now_button (email password : value) (w : world) :
  let failed := fun w1 =>
    with_ui (Navigate "Login" VUndefined)
      (with_ui (Alert "Login Failed"
                  "Registration was successful, but automatic login failed. Please try logging in manually.")
         w1) in
  (RegisterScreen.loginNow_onPress env email password w).1 = Normal tt /\
  (forall v w1,
     login env email password w = (Normal v, w1) ->
     RegisterScreen.loginNow_onPress env email password w = (Normal tt, w1)) /\
  (forall e w1,
     login env email password w = (Throw e, w1) ->
     RegisterScreen.loginNow_onPress env email password w = (Normal tt, failed w1)) /\
  (forall r t e,
     settle (backend env (login_request env w email password)) = Normal r ->
     get_prop (data r) "token" = Normal t ->
     truthy t = true ->
     settle (backend env (profile_request env w t)) = Throw e ->
     isLoading w = false ->
     let w' := (RegisterScreen.loginNow_onPress env email password w).2 in
     AppNavigator.AppNavigator (contextValue w') = AppNavigator.MainNavigator /\
     AppNavigator.route_component (AppNavigator.AppNavigator (contextValue w')) "Login" =
       None /\
     exists rest, ui w' = Navigate "Login" VUndefined :: rest).
Proof.
  cbn zeta. unfold RegisterScreen.loginNow_onPress, bind, try_catch, ret, emit, modify.
  split_and!.
  - by destruct (login env email password w) as [[v|e] w1].
  - by intros v w1 ->.
  - by intros e w1 ->.
  - intros r t e Hlogin Htok Htruthy Hprofile Hloading.
    rewrite (SessionProperties.login_profile_rejected env _ _ _ r t e) by done.
    unfold AppNavigator.AppNavigator, contextValue, isAuthenticated. cbn.
    rewrite Hloading, Htruthy. split_and!; [done|done|by eexists].
Qed.

(** What the filter of the profile screen keeps. *)
Lemma filter_own_kept (ctx : auth_context) (posts kept : list value) :
  UserProfileScreen.filter_own ctx posts = Normal kept ->
  kept `sublist_of` posts /\
  (forall p, p ∈ kept -> own_post ctx p = Normal true) /\
  (forall p, p ∈ posts -> own_post ctx p = Normal true -> p ∈ kept).
Proof.
  revert kept. induction posts as [|post posts IH]; intros kept; cbn.
  - intros [= <-]. split_and!; [done|by intros ? ?%elem_of_nil..].
  - destruct (own_post ctx post) as [keep|e] eqn:Hpost; [|done].
    destruct (UserProfileScreen.filter_own ctx posts) as [kept'|e]; [|done].
    destruct (IH kept' eq_refl) as (Hsub & Hown & Hall).
    intros [= <-]. destruct keep.
    + split_and!.
      * by apply sublist_skip.
      * intros p [->|Hin]%elem_of_cons; auto.
      * intros p [->|Hin]%elem_of_cons Hp; rewrite elem_of_cons; auto.
    + split_and!.
      * by apply sublist_cons.
      * done.
      * intros p [->|Hin]%elem_of_cons Hp; [congruence|auto].
Qed.

Lemma filter_own_defined (ctx : auth_context) (posts : list value) :
  (forall p, p ∈ posts -> exists b, own_post ctx p = Normal b) ->
  exists kept, UserProfileScreen.filter_own ctx posts = Normal kept.
Proof.
  induction posts as [|post posts IH]; intros Hall; cbn; [by eexists|].
  destruct (Hall post) as (b & ->); [by left|].
  destruct IH as (kept & ->); [|by eexists].
  intros p Hp. apply Hall. by right.
Qed.

(** How the loader of the own posts ends. *)
Lemma fetchUserPosts_run (ctx : auth_context) (w : world) :
  UserProfileScreen.fetchUserPosts env ctx w =
    (Normal
       (VArr
          match (getAllPosts env w).1 with
          | Normal (VArr posts) =>
              match get_prop (ctx_user ctx) "id", UserProfileScreen.filter_own ctx posts with
              | Normal _, Normal kept => kept
              | _, _ => []
              end
          | _ => []
          end),
     with_sent (all_posts_request env w) w).
Proof.
  unfold UserProfileScreen.fetchUserPosts, bind, try_catch, lift, ret.
  rewrite ClientProperties.getAllPosts_run. cbn [fst].
  destruct (settle _) as [r|e]; [|done].
  destruct (unwrap (data r)) as [| | | | |posts|]; try done.
  destruct (get_prop (ctx_user ctx) "id"); [|done].
  by destruct (UserProfileScreen.filter_own ctx posts).
Qed.

(** X18. The loader of the own posts of the profile screen never throws
    and always hands back an array. When [getAllPosts] returns an array, the
    result is a sub-sequence of it, in the same order, made of posts whose
    [userId] is strictly equal to the [id] of the signed-in user, and it
    holds every such post when the ownership check throws on none; in every
    other case, a failed request and a missing user included, the result is
    the empty array. *)
Theorem own_posts_of_profile (ctx : auth_context) (w : world) :
  exists kept,
    UserProfileScreen.fetchUserPosts env ctx w =
      (Normal (VArr kept), with_sent (all_posts_request env w) w) /\
    (forall p, p ∈ kept -> own_post ctx p = Normal true) /\
    (forall posts,
       (getAllPosts env w).1 = Normal (VArr posts) ->
       kept `sublist_of` posts /\
       ((forall p, p ∈ posts -> exists b, own_post ctx p = Normal b) ->
        forall p, p ∈ posts -> own_post ctx p = Normal true -> p ∈ kept)) /\
    ((forall posts, (getAllPosts env w).1 <> Normal (VArr posts)) -> kept = []) /\
    (nullish (ctx_user ctx) = true -> kept = []).
Proof.
  eexists. split; [apply fetchUserPosts_run|].
  destruct (getAllPosts env w).1 as [[| | | | |posts|]|e];
    try (split_and!; [by intros ? ?%elem_of_nil|by intros ? [=]|done|done]).
  destruct (get_prop (ctx_user ctx) "id") as [me|e] eqn:Hme.
  - destruct (UserProfileScreen.filter_own ctx posts) as [kept|e] eqn:Hkept.
    + destruct (filter_own_kept ctx posts kept Hkept) as (Hsub & Hown & Hall).
      split_and!; [done| | |].
      * by intros posts' [= <-].
      * intros Hno. by destruct (Hno posts).
      * intros Huser. by destruct (ctx_user ctx).
    + split_and!; [by intros ? ?%elem_of_nil| |done|done].
      intros posts' [= <-]. split; [apply sublist_nil_l|].
      intros Hdefined. destruct (filter_own_defined ctx posts Hdefined) as (kept & Hk).
      congruence.
  - split_and!; [by intros ? ?%elem_of_nil| |done|done].
    intros posts' [= <-]. split; [apply sublist_nil_l|].
    intros Hdefined p Hp. destruct (Hdefined p Hp) as (b & Hb).
    unfold own_post in Hb. rewrite Hme in Hb. by destruct (get_prop p "userId").
Qed.

(** X19. Loading the profile screen never throws, leaves the session
    alone and clears the loading flag last. When the profile request is
    rejected, the posts are not requested and the error of the screen is
    set. When it is answered, the posts are requested next and the screen
    ends without error whatever became of that second request: a failure to
    list the posts shows as an empty list of own posts, not as an error. *)
Theorem profile_screen_load (ctx : auth_context) (w : world) :
  let w' := (UserProfileScreen.fetchUserData env ctx w).2 in
  (UserProfileScreen.fetchUserData env ctx w).1 = Normal tt /\
  same_session w w' /\
  (forall e,
     settle (backend env (own_profile_request env w)) = Throw e ->
     sent w' = own_profile_request env w :: sent w /\
     ui w' = ([SetState "isLoading" (VBool false);
               SetState "error" (VStr "Failed to load profile data");
               SetState "isLoading" (VBool true)] ++ ui w)%list) /\
  (forall r,
     settle (backend env (own_profile_request env w)) = Normal r ->
     exists kept,
       sent w' = all_posts_request env w :: own_profile_request env w :: sent w /\
       ui w' = ([SetState "isLoading" (VBool false);
                 SetState "error" VNull;
                 SetState "userPosts" (VArr kept);
                 SetState "userProfile" (unwrap (data r));
                 SetState "isLoading" (VBool true)] ++ ui w)%list /\
       ((forall posts, (getAllPosts env w).1 <> Normal (VArr posts)) -> kept = [])).
Proof.
  cbn zeta.
  unfold UserProfileScreen.fetchUserData, bind, try_catch, try_finally, emit, modify.
  rewrite SessionLifecycle.getUserProfile_run.
  change (own_profile_request env (with_ui (SetState "isLoading" (VBool true)) w))
    with (own_profile_request env w).
  destruct (settle (backend env (own_profile_request env w))) as [r|e].
  - rewrite fetchUserPosts_run. cbn [fst snd].
    split_and!; [done|done|by intros ? [=]|].
    intros r' [= <-]. eexists. split_and!; [done|done|].
    intros Hno.
    match goal with
    | |- context [getAllPosts env ?W] =>
        replace (getAllPosts env W).1 with (getAllPosts env w).1
          by by rewrite !ClientProperties.getAllPosts_run
    end.
    destruct (getAllPosts env w).1 as [[| | | | |posts|]|e]; try done.
    by destruct (Hno posts).
  - cbn. split_and!; [done|done| |by intros ? [=]].
    by intros e' [= <-].
Qed.

(** X20. The users list is guarded twice. The header offers the route to
    an admin only, and for an actor who is not admin the loader of the
    screen sends nothing: it sets the permission error and ends the loading
    phase. For an admin it never throws and sends exactly the users request
    with the bearer of the session token; the list it shows is the [data]
    member of the body, and a rejection or a body that is [null] or absent
    sets the error of the screen and leaves the list as it was. *)
Theorem users_list_guard (ctx : auth_context) (w : world) :
  ("UsersList" ∈ AppNavigator.menu ctx <-> ctx_isAdmin ctx = true) /\
  (ctx_isAdmin ctx = false ->
   UsersListScreen.fetchUsers env ctx w =
     (Normal tt,
      with_ui (SetState "isLoading" (VBool false))
        (with_ui (SetState "error"
                    (VStr "You do not have permission to access this page")) w))) /\
  (ctx_isAdmin ctx = true ->
   let w' := (UsersListScreen.fetchUsers env ctx w).2 in
   let failed := [SetState "isLoading" (VBool false);
                  SetState "error" (VStr "Failed to load users. Please try again.");
                  SetState "isLoading" (VBool true)] in
   (UsersListScreen.fetchUsers env ctx w).1 = Normal tt /\
   sent w' = users_request env w :: sent w /\
   headers (users_request env w) !! "Authorization" = Some (bearer (token w)) /\
   (forall r,
      settle (backend env (users_request env w)) = Normal r ->
      nullish (data r) = false ->
      ui w' = ([SetState "isLoading" (VBool false);
                SetState "error" VNull;
                SetState "users" (get_prop_opt (data r) "data");
                SetState "isLoading" (VBool true)] ++ ui w)%list) /\
   (forall r,
      settle (backend env (users_request env w)) = Normal r ->
      nullish (data r) = true ->
      ui w' = (failed ++ ui w)%list) /\
   (forall e,
      settle (backend env (users_request env w)) = Throw e ->
      ui w' = (failed ++ ui w)%list)).
Proof.
  split_and!.
  - unfold AppNavigator.menu. destruct (ctx_isAdmin ctx); cbn.
    + split; [done|]. intros _. by left.
    + split; [|done]. by intros [=]%list_elem_of_singleton.
  - intros Hadmin. unfold UsersListScreen.fetchUsers, bind, emit, modify.
    by rewrite Hadmin.
  - intros Hadmin. cbn zeta.
    unfold UsersListScreen.fetchUsers, getAllUsers, users_request,
      bind, try_catch, try_finally, throw, ret, lift, emit, setError, modify, gets,
      axios_get, axios_request.
    rewrite Hadmin. cbn [negb fst snd token default_headers].
    unfold outgoing. cbn [default_headers headers].
    destruct (settle _) as [r|e]; cbn beta iota.
    + destruct (nullish (data r)) eqn:Hbody.
      * destruct (data r) eqn:Hdata; try done; cbn; split_and!; try done;
          try (apply lookup_union_Some_l, lookup_singleton_eq);
          try (by intros ? [= <-]); try (by intros ? [= <-]; rewrite Hdata).
      * rewrite (PostServiceProperties.get_prop_defined (data r)) by done.
        cbn. split_and!; try done;
          try (apply lookup_union_Some_l, lookup_singleton_eq).
        -- by intros ? [= <-].
        -- intros ? [= <-]. by rewrite Hbody.
    + cbn. split_and!; try done;
        try (apply lookup_union_Some_l, lookup_singleton_eq).
Qed.

Lemma restore_ends_loading (w : world) :
  isLoading (loadStoredAuthState env w).2 = false.
Proof.
  unfold loadStoredAuthState, try_finally, setIsLoading, modify.
  by destruct (try_catch _ _ w) as [c w1].
Qed.

Lemma logout_signs_out (w : world) :
  token (logout env w).2 = VNull /\ isLoading (logout env w).2 = isLoading w.
Proof.
  unfold logout, bind, try_catch, ret, setUser, setToken, delete_default_header, modify,
    AsyncStorage_removeItem.
  cbn [fst snd storage].
  destruct (storage_faulty env (RemoveItem "authToken")); [done|].
  cbn [fst snd storage with_storage].
  by destruct (storage_faulty env (RemoveItem "user")).
Qed.

(** X21. What the root of the application shows around the operations of
    the session: the spinner when a process starts, never the spinner once
    the restore has run, whatever the store held or did; the sign-in stack
    after a [logout], also when the store rejected the removals; the main
    stack after a [login] that returned. Every route the header offers
    exists in the main stack. *)
Theorem root_after_session_operations (w : world) :
  AppNavigator.AppNavigator (contextValue (restart w)) = AppNavigator.Spinner /\
  AppNavigator.AppNavigator (contextValue (loadStoredAuthState env w).2) <>
    AppNavigator.Spinner /\
  (isLoading w = false ->
   AppNavigator.AppNavigator (contextValue (logout env w).2) =
     AppNavigator.AuthNavigator) /\
  (forall email password v w',
     login env email password w = (Normal v, w') ->
     isLoading w = false ->
     AppNavigator.AppNavigator (contextValue w') = AppNavigator.MainNavigator) /\
  (forall ctx name,
     name ∈ AppNavigator.menu ctx ->
     is_Some (AppNavigator.route_component AppNavigator.MainNavigator name)).
Proof.
  unfold AppNavigator.AppNavigator, contextValue, isAuthenticated.
  cbn [ctx_isLoading ctx_isAuthenticated]. split_and!.
  - done.
  - rewrite restore_ends_loading. by destruct (truthy _).
  - intros Hloading. destruct (logout_signs_out w) as [-> ->]. by rewrite Hloading.
  - intros email password v w' Hlogin Hloading.
    destruct (SessionLifecycle.login_returns_token env _ _ _ _ _ Hlogin)
      as (t & Htoken & Hne).
    destruct (SessionProperties.login_returns_inv env _ _ _ _ _ Hlogin)
      as (r & p & t' & s & _ & _ & _ & _ & _ & ->).
    cbn in *. injection Htoken as ->. rewrite Hloading.
    apply String.eqb_neq in Hne. by rewrite Hne.
  - intros ctx name. unfold AppNavigator.menu.
    destruct (ctx_isAdmin ctx); cbn; rewrite ?elem_of_cons, elem_of_nil.
    + by intros [->|[->|[]]].
    + by intros [->|[]].
Qed.

(** X22. The test call of the debug screen never throws, leaves the
    session alone and clears its loading flag last. It reads the token from
    the store, not from the session: the request carries the bearer of the
    stored token, and of [null] when the store has none, and it goes to the
    address of the Android emulator whatever the platform is. When the
    store cannot be read nothing is sent. *)
Theorem debug_call_uses_stored_token (w : world) :
  let w' := (TokenDebugScreen.testApiCall env w).2 in
  let stored := from_option VStr VNull (storage w !! "authToken") in
  (TokenDebugScreen.testApiCall env w).1 = Normal tt /\
  same_session w w' /\
  state_of "isLoading" (VBool false) (ui w') = VBool false /\
  (storage_faulty env (GetItem "authToken") = true -> sent w' = sent w) /\
  (storage_faulty env (GetItem "authToken") = false ->
   sent w' = debug_request w stored :: sent w /\
   headers (debug_request w stored) !! "Authorization" = Some (bearer stored) /\
   (String.eqb (platform_os env) "android" = false ->
    url (debug_request w stored) <> url (own_profile_request env w))).
Proof.
  cbn zeta.
  unfold TokenDebugScreen.testApiCall, bind, try_catch, try_finally, emit, modify,
    AsyncStorage_getItem, axios_get, axios_request, debug_request.
  cbn [fst snd storage default_headers].
  destruct (storage_faulty env (GetItem "authToken")).
  - cbn. by split_and!.
  - unfold outgoing. cbn [default_headers].
    assert (({["Authorization" := bearer (from_option VStr VNull (storage w !! "authToken"))]}
               ∪ default_headers w : gmap string string) !! "Authorization" =
            Some (bearer (from_option VStr VNull (storage w !! "authToken")))) as Hheader
      by apply lookup_union_Some_l, lookup_singleton_eq.
    destruct (settle _) as [r|e]; cbn; split_and!; try done.
    all: intros _; split_and!; try done.
    all: intros Hios; unfold API_URL; by rewrite Hios.
Qed.

End WithEnv.

Import Sample Scenario.


Lemma list_screen_after_fetch_witness :
  settle (backend env_no_posts (all_posts_request env_no_posts fresh)) =
    Normal (HttpResponse 200 (VArr [])) /\
  unwrap (data (HttpResponse 200 (VArr []))) = VArr [] /\
  list_shown (ui (PostsScreen.fetchPosts env_no_posts fresh).2) = Normal EmptyView /\
  settle (backend env_null_posts (all_posts_request env_null_posts fresh)) =
    Normal (HttpResponse 200 VNull) /\
  (exists msg,
     list_shown (ui (PostsScreen.fetchPosts env_null_posts fresh).2) =
       Throw (TypeError msg)).
Proof.
  destruct (list_screen_after_fetch env_no_posts fresh) as (_ & _ & _ & Hlist & _).
  destruct (list_screen_after_fetch env_null_posts fresh) as (_ & _ & _ & _ & Hnull).
  split_and!; [vm_compute; reflexivity|reflexivity| |vm_compute; reflexivity|].
  - apply (Hlist (HttpResponse 200 (VArr [])) []); [vm_compute; reflexivity|reflexivity].
  - apply (Hnull (HttpResponse 200 VNull)); [vm_compute; reflexivity|reflexivity].
Defined.


Lemma edit_form_load_witness :
  CreateEditPostScreen.isEditing edit_params = true /\
  settle (backend env_up (post_request env_up fresh (VNum 7))) =
    Normal (HttpResponse 200 (VObj [("data", post_of_alice)])) /\
  (CreateEditPostScreen.loadEffect env_up edit_params fresh).1 = Normal tt /\
  ui (CreateEditPostScreen.loadEffect env_up edit_params fresh).2 =
    [SetState "isFetchingPost" (VBool false); SetState "content" (VStr "C");
     SetState "title" (VStr "T")].
Proof.
  destruct (edit_form_load env_up edit_params fresh) as (_ & Hedit).
  destruct (Hedit eq_refl) as (Hrun & _ & _ & _ & Hloaded & _).
  split_and!; [reflexivity|vm_compute; reflexivity|exact Hrun|].
  exact (Hloaded (HttpResponse 200 (VObj [("data", post_of_alice)]))
           ltac:(vm_compute; reflexivity) eq_refl).
Defined.

(** A title that is one no-break space, over a content of plain spaces:
    the dialog names the title. *)
Lemma submit_refuses_blank_fields_witness :
  blank (VStr nbsp) /\
  CreateEditPostScreen.handleSubmit env_up alice_ctx edit_params (VStr nbsp) (VStr "   ")
    alice_world =
    (Normal tt, with_ui (Alert "Error" "Please enter a title") alice_world).
Proof.
  split; [vm_compute; reflexivity|].
  apply (proj1 (submit_refuses_blank_fields env_up alice_ctx edit_params (VStr nbsp)
                  (VStr "   ") alice_world)).
  vm_compute; reflexivity.
Defined.


(** [alice] deletes her post from the list: the success dialog stands
    between the raised loading flag and the reloaded list. When the backend
    refuses the deletion, the one dialog carries its message and the list is
    not reloaded. *)
Lemma delete_handler_outcome_witness :
  own_post alice_ctx post_of_alice = Normal true /\
  delete_choice env_up alice_ctx alice_world (VNum 7) true =
    [deleteOwn_request env_up alice_ctx alice_world (VNum 7)] /\
  settle (backend env_up (deleteOwn_request env_up alice_ctx alice_world (VNum 7))) =
    Normal (HttpResponse 200 (VObj [("message", VStr "deleted")])) /\
  (exists w',
     PostsScreen.handleDeletePost_onPress env_up alice_ctx (VNum 7) post_of_alice
       alice_world = (Normal tt, w') /\
     endpoints (sent w') =
       [(GET, "http://localhost:3000/post/all");
        (DELETE, "http://localhost:3000/post/deleteOwnPost/7")] /\
     ui w' =
       [SetState "isLoading" (VBool false); SetState "error" VNull;
        SetState "posts" (VArr [post_of_alice; post_of_root]);
        Alert "Success" "Post deleted successfully";
        SetState "isLoading" (VBool true)]) /\
  settle (backend env_delete_refused
            (deleteOwn_request env_delete_refused alice_ctx alice_world (VNum 7))) =
    Throw (rejection 403 "forbidden") /\
  PostsScreen.handleDeletePost_onPress env_delete_refused alice_ctx (VNum 7) post_of_alice
    alice_world =
    (Normal tt,
     with_ui (Alert "Error" "Failed to delete post: forbidden")
       (with_sent (deleteOwn_request env_delete_refused alice_ctx alice_world (VNum 7))
          alice_world)).
Proof.
  destruct (delete_handler_outcome env_up alice_ctx (VNum 7) post_of_alice
              alice_world) as (_ & _ & Hdeleted).
  destruct (delete_handler_outcome env_delete_refused alice_ctx (VNum 7) post_of_alice
              alice_world) as (_ & Hrefused & _).
  split_and!; [reflexivity|reflexivity|vm_compute; reflexivity| |vm_compute; reflexivity|].
  - destruct (Hdeleted true (deleteOwn_request env_up alice_ctx alice_world (VNum 7))
                (HttpResponse 200 (VObj [("message", VStr "deleted")])))
      as ((w' & Hrun & _ & Hsent & Hui) & _);
      [reflexivity|reflexivity|vm_compute; reflexivity|].
    exists w'. split_and!; [exact Hrun| |].
    + rewrite Hsent. vm_compute; reflexivity.
    + rewrite Hui. vm_compute; reflexivity.
  - apply (Hrefused true _ (rejection 403 "forbidden"));
      [reflexivity|reflexivity|vm_compute; reflexivity].
Defined.

Lemma buttons_match_delete_handlers_witness :
  ctx_isAuthenticated alice_ctx = true /\
  truthy post_of_root = true /\
  nullish (ctx_user alice_ctx) = false /\
  PostsScreen.canDeletePost alice_ctx post_of_root = Normal false /\
  (PostsScreen.handleDeletePost_onPress env_up alice_ctx (VNum 8) post_of_root
     alice_world).2 =
    with_ui (Alert "Error" "You can only delete your own posts") alice_world.
Proof.
  destruct (buttons_match_delete_handlers env_up alice_ctx (VNum 8) post_of_root
              alice_world) as (_ & Hsigned).
  destruct (Hsigned eq_refl eq_refl eq_refl)
    as (own & Hown & _ & Hbutton & _ & _ & Hpress).
  assert (own = false) as -> by (vm_compute in Hown; congruence).
  split_and!; [reflexivity..|exact Hbutton|].
  apply (Hpress _). by left.
Defined.


Lemma login_now_button_witness :
  settle (backend env_profile_down
            (login_request env_profile_down signed_out email password)) =
    Normal token_response /\
  settle (backend env_profile_down
            (profile_request env_profile_down signed_out (VStr "tok-1"))) =
    Throw (rejection 500 "internal error") /\
  AppNavigator.AppNavigator
    (contextValue (RegisterScreen.loginNow_onPress env_profile_down email password
                     signed_out).2) = AppNavigator.MainNavigator /\
  AppNavigator.route_component AppNavigator.MainNavigator "Login" = None.
Proof.
  destruct (login_now_button env_profile_down email password signed_out)
    as (_ & _ & _ & Hkept).
  destruct (Hkept token_response (VStr "tok-1") (rejection 500 "internal error"))
    as (Hroot & Hroute & _); [vm_compute; reflexivity..|].
  split_and!; [vm_compute; reflexivity..|exact Hroot|].
  by rewrite Hroot in Hroute.
Defined.

Lemma own_posts_of_profile_witness :
  (getAllPosts env_up alice_world).1 = Normal (VArr [post_of_alice; post_of_root]) /\
  exists kept,
    (UserProfileScreen.fetchUserPosts env_up alice_ctx alice_world).1 =
      Normal (VArr kept) /\
    kept `sublist_of` [post_of_alice; post_of_root] /\
    post_of_alice ∈ kept.
Proof.
  split; [vm_compute; reflexivity|].
  destruct (own_posts_of_profile env_up alice_ctx alice_world)
    as (kept & Hrun & _ & Hposts & _).
  destruct (Hposts [post_of_alice; post_of_root]) as (Hsub & Hall);
    [vm_compute; reflexivity|].
  exists kept. split_and!; [by rewrite Hrun|exact Hsub|].
  apply Hall; [|by left|reflexivity].
  intros p [->|[->|[]%elem_of_nil]%elem_of_cons]%elem_of_cons; by eexists.
Defined.

Lemma profile_screen_load_witness :
  settle (backend env_profile_down (own_profile_request env_profile_down alice_world)) =
    Throw (rejection 500 "internal error") /\
  endpoints (sent (UserProfileScreen.fetchUserData env_profile_down alice_ctx
                     alice_world).2) =
    [(GET, "http://localhost:3000/user/monprofil")] /\
  state_of "error" VNull
    (ui (UserProfileScreen.fetchUserData env_profile_down alice_ctx alice_world).2) =
    VStr "Failed to load profile data".
Proof.
  destruct (profile_screen_load env_profile_down alice_ctx alice_world)
    as (_ & _ & Hdown & _).
  destruct (Hdown (rejection 500 "internal error")) as (Hsent & Hui);
    [vm_compute; reflexivity|].
  split_and!; [vm_compute; reflexivity| |].
  - rewrite Hsent. vm_compute; reflexivity.
  - by rewrite Hui.
Defined.

Lemma users_list_guard_witness :
  ctx_isAdmin alice_ctx = false /\
  UsersListScreen.fetchUsers env_up alice_ctx alice_world =
    (Normal tt,
     with_ui (SetState "isLoading" (VBool false))
       (with_ui (SetState "error"
                   (VStr "You do not have permission to access this page"))
          alice_world)).
Proof.
  destruct (users_list_guard env_up alice_ctx alice_world) as (_ & Hguard & _).
  split; [reflexivity|]. by apply Hguard.
Defined.

Lemma root_after_session_operations_witness :
  isLoading alice_world = false /\
  AppNavigator.AppNavigator (contextValue (logout env_store_fault alice_world).2) =
    AppNavigator.AuthNavigator.
Proof.
  destruct (root_after_session_operations env_store_fault alice_world)
    as (_ & _ & Hout & _).
  split; [reflexivity|]. by apply Hout.
Defined.

Lemma debug_call_uses_stored_token_witness :
  storage_faulty env_profile_down (GetItem "authToken") = false /\
  endpoints (sent (TokenDebugScreen.testApiCall env_profile_down
                     (login env_profile_down email password signed_out).2).2) =
    (GET, "http://10.0.2.2:3000/user/monprofil")
    :: endpoints (sent (login env_profile_down email password signed_out).2) /\
  token (login env_profile_down email password signed_out).2 = VStr "tok-1" /\
  headers (debug_request (login env_profile_down email password signed_out).2 VNull)
    !! "Authorization" = Some "Bearer null".
Proof.
  destruct (debug_call_uses_stored_token env_profile_down
              (login env_profile_down email password signed_out).2)
    as (_ & _ & _ & _ & Hread).
  destruct (Hread eq_refl) as (Hsent & Hheader & _).
  split_and!; [reflexivity| |vm_compute; reflexivity|].
  - rewrite Hsent. vm_compute; reflexivity.
  - exact Hheader.
Defined.

End ScreenFlows.
